(** * Policy Comparator: a shallow embedding of [app.py]

    The dashboard script loads a small table of countries, derives a
    completeness score per country, filters the table, aggregates a few
    indicators and compares two countries field by field.  This file embeds
    the computational parts of the script and proves the properties its
    specification states about them.

    Conventions of the embedding.
    - A Python [str] is a list of Unicode code points ([list N]).
    - A table cell is either text or missing ([NaN], which is what
      [pandas.read_csv] stores for an empty field).  The columns are text
      columns; a column that [read_csv] would infer as numeric is outside
      the model.
    - A [DataFrame] is the list of its rows in index order.
    - Binary64 arithmetic is the kernel's primitive [float].
    - A float that was rounded to one decimal is represented by its number of
      tenths [n : Z]; it stands for the double nearest to [n/10], which Python
      prints as that decimal number. *)

From Stdlib Require Import ZArith NArith QArith List Bool String Ascii Lia DecimalString.
From Stdlib Require Import Sorting.Sorted.
From Stdlib Require Import Floats.PrimFloat Floats.FloatOps Floats.SpecFloat.
From Stdlib Require Import Numbers.Cyclic.Int63.Uint63.
Import ListNotations.

Local Open Scope Z_scope.

(* ================================================================= *)
(** ** Python strings *)

Module PyStr.

(** A string is the sequence of its code points. *)
Definition str := list N.

Fixpoint of_string (s : string) : str :=
  match s with
  | EmptyString => []
  | String a s' => N_of_ascii a :: of_string s'
  end.

Fixpoint eqb (a b : str) : bool :=
  match a, b with
  | [], [] => true
  | x :: a', y :: b' => N.eqb x y && eqb a' b'
  | _, _ => false
  end.

(** Code points for which [str.isspace] holds; these are the ones
    [str.strip()] removes. *)
Definition is_space (c : N) : bool :=
  ((9 <=? c) && (c <=? 13) || (28 <=? c) && (c <=? 32)
   || (c =? 133) || (c =? 160) || (c =? 5760)
   || (8192 <=? c) && (c <=? 8202)
   || (c =? 8232) || (c =? 8233) || (c =? 8239) || (c =? 8287)
   || (c =? 12288))%N.

Fixpoint lstrip (s : str) : str :=
  match s with
  | [] => []
  | c :: s' => if is_space c then lstrip s' else s
  end.

Definition rstrip (s : str) : str := rev (lstrip (rev s)).

Definition strip (s : str) : str := rstrip (lstrip s).

(** Code point order, as [<] on [str]. *)
Fixpoint ltb (a b : str) : bool :=
  match a, b with
  | _, [] => false
  | [], _ :: _ => true
  | x :: a', y :: b' => (x <? y)%N || (N.eqb x y && ltb a' b')
  end.

Definition leb (a b : str) : bool := negb (ltb b a).

End PyStr.

Abbreviation str := PyStr.str.

(** A string literal of the script. *)
Abbreviation lit := PyStr.of_string.

(* ================================================================= *)
(** ** Cells and columns *)

(** What [read_csv] stores in a column of text: a string, or NaN for a
    missing value. *)
Inductive Cell :=
| CStr (s : str)
| CNaN.

(** [a == b] on two cells: NaN is equal to nothing, itself included. *)
Definition cell_eq (a b : Cell) : bool :=
  match a, b with
  | CStr x, CStr y => PyStr.eqb x y
  | _, _ => false
  end.

(** [str(v)] *)
Definition py_str (v : Cell) : str :=
  match v with
  | CStr s => s
  | CNaN => lit "nan"
  end.

(** [v in values] / [series.isin(values)] for a list of strings. *)
Definition isin (v : Cell) (values : list str) : bool :=
  existsb (fun x => cell_eq v (CStr x)) values.

Inductive PolicyColumn :=
| prevention
| administrative
| criminal_justice
| surveillance
| rehab_reintegration
| women_children_notes.

Definition POLICY_COLUMNS : list PolicyColumn :=
  [prevention; administrative; criminal_justice; surveillance;
   rehab_reintegration; women_children_notes].

Definition CATEGORY_LABELS (col : PolicyColumn) : str :=
  match col with
  | prevention => lit "Prevention"
  | administrative => lit "Administrative Measures"
  | criminal_justice => lit "Criminal Justice"
  | surveillance => lit "Surveillance/Monitoring"
  | rehab_reintegration => lit "Rehabilitation/Reintegration"
  | women_children_notes => lit "Women & Children"
  end.

Definition Yes : str := lit "Yes".
Definition Partial : str := lit "Partial".
Definition No : str := lit "No".

(* ================================================================= *)
(** ** Scoring *)

(** A [dict] with string keys, in insertion order. *)
Fixpoint dict_get {V : Type} (d : list (str * V)) (k : str) (default : V) : V :=
  match d with
  | [] => default
  | (k', v) :: d' => if PyStr.eqb k' k then v else dict_get d' k default
  end.

Definition YES_SCORE : list (str * float) :=
  [(Yes, 1.0%float); (Partial, 0.5%float); (No, 0.0%float)].

(** [sum(xs)] on floats, from the integer start value 0. *)
Definition py_sum (xs : list float) : float :=
  fold_left PrimFloat.add xs 0%float.

(** [float(n)] for a length. *)
Definition float_of_nat (n : nat) : float :=
  PrimFloat.of_uint63 (Uint63.of_Z (Z.of_nat n)).

(** Nearest integer to [num/den] ([den > 0]), ties to even. *)
Definition round_half_even (num den : Z) : Z :=
  let q := num / den in
  let r := num mod den in
  match 2 * r ?= den with
  | Lt => q
  | Gt => q + 1
  | Eq => if Z.even q then q else q + 1
  end.

(** [round(x, 1)]: the exact value of [x] rounded to one decimal, ties to
    even, as a number of tenths.  Python hands back an infinity or a NaN
    unchanged; these have no tenths and are sent to 0 here
    ([completeness_arg_finite] shows the scores never get there). *)
Definition round_1 (x : float) : Z :=
  match Prim2SF x with
  | S754_finite sg m e =>
      let n := if 0 <=? e
               then 10 * Zpos m * 2 ^ e
               else round_half_even (10 * Zpos m) (2 ^ (- e)) in
      if sg then - n else n
  | _ => 0
  end.

(** The value that [calc_country_completeness] rounds. *)
Definition completeness_arg (row : PolicyColumn -> Cell) : float :=
  let scores :=
    map (fun col =>
           let val := PyStr.strip (py_str (row col)) in
           dict_get YES_SCORE val 0.0%float)
        POLICY_COLUMNS in
  (py_sum scores / float_of_nat (List.length scores) * 100)%float.

(** [calc_country_completeness(row)], [row] being indexed by column label. *)
Definition calc_country_completeness (row : PolicyColumn -> Cell) : Z :=
  round_1 (completeness_arg row).

(** [(series == "No").sum()] and the like: the number of [True] entries. *)
Definition sum_true (bs : list bool) : nat :=
  fold_left (fun n (b : bool) => if b then S n else n) bs 0%nat.

(* ================================================================= *)
(** ** Rows and the loaded table *)

(** The six policy cells of a row. *)
Record PolicyCells := {
  v_prevention : Cell;
  v_administrative : Cell;
  v_criminal_justice : Cell;
  v_surveillance : Cell;
  v_rehab_reintegration : Cell;
  v_women_children_notes : Cell
}.

(** [row[col]] for a policy column. *)
Definition get (p : PolicyCells) (col : PolicyColumn) : Cell :=
  match col with
  | prevention => v_prevention p
  | administrative => v_administrative p
  | criminal_justice => v_criminal_justice p
  | surveillance => v_surveillance p
  | rehab_reintegration => v_rehab_reintegration p
  | women_children_notes => v_women_children_notes p
  end.

(** A row as [read_csv] delivers it. *)
Record RawRow := {
  raw_country : Cell;
  raw_last_update : Cell;
  raw_review_status : Cell;
  raw_policy : PolicyCells;
  raw_notes : Cell
}.

(** A parsed date; [None] is [NaT]. *)
Definition Timestamp := option Z.

(** A row of [df] once the script has normalised the date and added the
    completeness column (in tenths of a percent point). *)
Record Row := {
  country : Cell;
  last_update : Timestamp;
  review_status : Cell;
  policy : PolicyCells;
  notes : Cell;
  completeness_pct : Z
}.

Definition DataFrame := list Row.

Fixpoint mapi_from {A B : Type} (i : nat) (f : nat -> A -> B) (l : list A) : list B :=
  match l with
  | [] => []
  | x :: l' => f i x :: mapi_from (S i) f l'
  end.

Section Loader.

(** [pd.to_datetime(series, errors="coerce")], read entry by entry:
    [to_datetime series i] is the entry at position [i] of the result.
    Date parsing stays abstract; nothing below depends on it. *)
Variable to_datetime : list Cell -> nat -> Timestamp.

Definition normalize_date (series : list Cell) : nat -> Timestamp :=
  to_datetime series.

(** Lines 26, 77 and 78: the table read from the CSV text, with
    [last_update] normalised and [completeness_pct] computed row by row. *)
Definition load (raw : list RawRow) : DataFrame :=
  let dates := normalize_date (map raw_last_update raw) in
  mapi_from 0
    (fun i r =>
       {| country := raw_country r;
          last_update := dates i;
          review_status := raw_review_status r;
          policy := raw_policy r;
          notes := raw_notes r;
          completeness_pct := calc_country_completeness (get (raw_policy r)) |})
    raw.

End Loader.

(** [count_gap_fields(dataframe)] *)
Definition count_gap_fields (dataframe : DataFrame) : nat :=
  fold_left
    (fun gap_count col =>
       (gap_count
        + sum_true (map (fun r => cell_eq (get (policy r) col) (CStr No)) dataframe))%nat)
    POLICY_COLUMNS 0%nat.

(* ================================================================= *)
(** ** Sidebar filters *)

(** [series.dropna()] on a column of text. *)
Fixpoint dropna (series : list Cell) : list str :=
  match series with
  | [] => []
  | CStr s :: rest => s :: dropna rest
  | CNaN :: rest => dropna rest
  end.

(** [series.unique()]: the distinct values in order of first appearance. *)
Fixpoint unique (l : list str) : list str :=
  match l with
  | [] => []
  | x :: l' => x :: filter (fun y => negb (PyStr.eqb x y)) (unique l')
  end.

Fixpoint insert_sorted (x : str) (l : list str) : list str :=
  match l with
  | [] => [x]
  | y :: l' => if PyStr.leb x y then x :: l else y :: insert_sorted x l'
  end.

(** [sorted(l)] on strings. *)
Definition sorted (l : list str) : list str :=
  fold_right insert_sorted [] l.

(** Line 84: the options of the country selectors. *)
Definition countries (df : DataFrame) : list str :=
  sorted (unique (dropna (map country df))).

Definition STATUS_OPTIONS : list str := [lit "Green"; lit "Yellow"; lit "Red"].

(** Lines 103 to 110.  [selected_category] is [None] for "Semua". *)
Definition filtered_df (df : DataFrame)
    (selected_countries selected_status : list str)
    (selected_category : option PolicyColumn) : DataFrame :=
  let filtered :=
    filter (fun r => isin (country r) selected_countries
                     && isin (review_status r) selected_status) df in
  match selected_category with
  | None => filtered
  | Some col =>
      filter (fun r => isin (get (policy r) col) [Yes; Partial]) filtered
  end.

(* ================================================================= *)
(** ** KPI cards *)

Record KPI := {
  total_country : nat;
  total_all : nat;
  green_count : nat;
  yellow_count : nat;
  red_count : nat;
  avg_completeness : Z;
  gap_fields : nat
}.

Section Aggregation.

(** [round(series.mean(), 1)] on a non-empty completeness column, in
    tenths.  pandas' mean and numpy's rounding are not modelled; the script
    calls them on non-empty input only. *)
Variable mean_round_1 : list Z -> Z.

Definition count_status (df : DataFrame) (status : str) : nat :=
  sum_true (map (fun r => cell_eq (review_status r) (CStr status)) df).

(** Lines 121 to 127, over the filtered table [fdf] and the full one. *)
Definition kpis (df fdf : DataFrame) : KPI :=
  let total := List.length fdf in
  {| total_country := total;
     total_all := List.length df;
     green_count := count_status fdf (lit "Green");
     yellow_count := count_status fdf (lit "Yellow");
     red_count := count_status fdf (lit "Red");
     avg_completeness :=
       if (0 <? total)%nat then mean_round_1 (map completeness_pct fdf) else 0;
     gap_fields :=
       if (0 <? total)%nat then count_gap_fields fdf else 0%nat |}.

End Aggregation.

(* ================================================================= *)
(** ** Country comparator *)

Inductive Verdict :=
| Equal       (* "Sama" *)
| AStronger   (* "<country_a> lebih kuat" *)
| BStronger   (* "<country_b> lebih kuat" *)
| Divergent.  (* "Berbeda" *)

(** The [if]/[elif] chain of lines 212 to 219. *)
Definition verdict (a_val b_val : Cell) : Verdict :=
  if cell_eq a_val b_val then Equal
  else if (cell_eq a_val (CStr Yes) && isin b_val [Partial; No])
          || (cell_eq a_val (CStr Partial) && cell_eq b_val (CStr No))
       then AStronger
  else if (cell_eq b_val (CStr Yes) && isin a_val [Partial; No])
          || (cell_eq b_val (CStr Partial) && cell_eq a_val (CStr No))
       then BStronger
  else Divergent.

(** The text assigned to [note] in each branch. *)
Definition note_text (country_a country_b : str) (v : Verdict) : str :=
  match v with
  | Equal => lit "Sama"
  | AStronger => country_a ++ lit " lebih kuat"
  | BStronger => country_b ++ lit " lebih kuat"
  | Divergent => lit "Berbeda"
  end.

(** One entry of [compare_rows].  The script stores it as a dict keyed by
    "Kategori", the two country names and "Catatan", so keys coincide when
    the two names are equal; the record keeps the four values apart.
    "Catatan" is set last and always holds the note. *)
Record CompareRow := {
  Kategori : str;
  value_a : Cell;
  value_b : Cell;
  Catatan : str
}.

(** How Python prints a float that holds [n] tenths: [-0.5], [41.7], [100.0]. *)
Definition format_tenths (n : Z) : str :=
  let digits (k : Z) := lit (DecimalString.NilZero.string_of_uint (N.to_uint (Z.to_N k))) in
  let a := Z.abs n in
  (if n <? 0 then lit "-" else []) ++ digits (a / 10) ++ lit "." ++ digits (a mod 10).

(** Lines 232 to 239. *)
Definition summary_text (country_a country_b : str) (score_a score_b : Z) : str :=
  if score_b <? score_a then
    lit "Secara umum **" ++ country_a
    ++ lit "** terlihat lebih lengkap dalam data contoh ini ("
    ++ format_tenths score_a ++ lit "%) dibanding **" ++ country_b
    ++ lit "** (" ++ format_tenths score_b ++ lit "%)."
  else if score_a <? score_b then
    lit "Secara umum **" ++ country_b
    ++ lit "** terlihat lebih lengkap dalam data contoh ini ("
    ++ format_tenths score_b ++ lit "%) dibanding **" ++ country_a
    ++ lit "** (" ++ format_tenths score_a ++ lit "%)."
  else
    lit "Secara umum **" ++ country_a ++ lit "** dan **" ++ country_b
    ++ lit "** memiliki tingkat kelengkapan yang setara ("
    ++ format_tenths score_a ++ lit "%).".

(** [frame.iloc[0]]: the first row, or [IndexError] ([None]) on an empty frame. *)
Definition iloc0 (frame : DataFrame) : option Row :=
  match frame with
  | [] => None
  | r :: _ => Some r
  end.

(** [df[df["country"] == name].iloc[0]] *)
Definition lookup (df : DataFrame) (name : str) : option Row :=
  iloc0 (filter (fun r => cell_eq (country r) (CStr name)) df).

(** The loop of lines 207 to 226 for two rows already found. *)
Definition compare_rows (country_a country_b : str) (row_a row_b : Row) : list CompareRow :=
  map (fun col =>
         let a_val := get (policy row_a) col in
         let b_val := get (policy row_b) col in
         {| Kategori := CATEGORY_LABELS col;
            value_a := a_val;
            value_b := b_val;
            Catatan := note_text country_a country_b (verdict a_val b_val) |})
      POLICY_COLUMNS.

(** Lines 204 to 239: the comparison of two selected countries.  [None] is
    the [IndexError] of a lookup that finds no row. *)
Definition compare (df : DataFrame) (country_a country_b : str)
  : option (list CompareRow * str) :=
  match lookup df country_a with
  | None => None
  | Some row_a =>
      match lookup df country_b with
      | None => None
      | Some row_b =>
          Some (compare_rows country_a country_b row_a row_b,
                summary_text country_a country_b
                  (completeness_pct row_a) (completeness_pct row_b))
      end
  end.

Inductive Panel :=
| Comparison (rows : list CompareRow) (summary : str)
| NotEnoughData.   (* "Data negara belum cukup untuk komparasi." *)

(** Lines 197 to 243, with the guard on the number of countries. *)
Definition comparator (df : DataFrame) (country_a country_b : str) : option Panel :=
  if (2 <=? List.length (countries df))%nat then
    match compare df country_a country_b with
    | Some (rows, summary) => Some (Comparison rows summary)
    | None => None
    end
  else Some NotEnoughData.


(* ================================================================= *)
(** ** The specification's reading of the scores *)

(** Reference definitions, written after the specification's wording and in
    exact rational arithmetic.  They are compared with the code above. *)
Module Spec.

Definition str_eq_dec : forall a b : str, {a = b} + {a <> b} :=
  list_eq_dec N.eq_dec.

Definition Cell_eq_dec : forall a b : Cell, {a = b} + {a <> b}.
Proof. decide equality. apply str_eq_dec. Defined.

(** Yes -> 1.0, Partial -> 0.5, No -> 0.0, any other string -> 0.0 *)
Definition field_score (s : str) : Q :=
  if str_eq_dec s Yes then 1
  else if str_eq_dec s Partial then 1 # 2
  else if str_eq_dec s No then 0
  else 0.

Definition mean (xs : list Q) : Q :=
  fold_right Qplus 0%Q xs / inject_Z (Z.of_nat (List.length xs)).

(** [q] rounded to one decimal, as a number of tenths. *)
Definition round_1 (q : Q) : Z :=
  let t := (q * 10)%Q in
  round_half_even (Qnum t) (Zpos (Qden t)).

(** round(100 x mean of the six field scores, 1), each value scored after
    [str(...).strip()]. *)
Definition completeness (row : PolicyColumn -> Cell) : Z :=
  round_1 (100 * mean (map (fun col => field_score (PyStr.strip (py_str (row col))))
                           POLICY_COLUMNS)).

(** The same with each stored value scored as it stands, a missing value
    counting as "any other". *)
Definition completeness_literal (row : PolicyColumn -> Cell) : Z :=
  round_1 (100 * mean (map (fun col => match row col with
                                       | CStr s => field_score s
                                       | CNaN => 0%Q
                                       end)
                           POLICY_COLUMNS)).

(** All policy values of a table, row by row. *)
Definition policy_values (df : DataFrame) : list Cell :=
  flat_map (fun r => map (get (policy r)) POLICY_COLUMNS) df.

(** The number of values that are the literal "No". *)
Definition gap_count (df : DataFrame) : nat :=
  count_occ Cell_eq_dec (policy_values df) (CStr No).

(** Strength on the three known values: Yes > Partial > No. *)
Definition strength (v : Cell) : option nat :=
  match v with
  | CStr s =>
      if str_eq_dec s Yes then Some 2%nat
      else if str_eq_dec s Partial then Some 1%nat
      else if str_eq_dec s No then Some 0%nat
      else None
  | CNaN => None
  end.

(** [a] is strictly stronger than [b], both being known values. *)
Definition stronger (a b : Cell) : bool :=
  match strength a, strength b with
  | Some x, Some y => (y <? x)%nat
  | _, _ => false
  end.

(** Same literal string. *)
Definition same_string (a b : Cell) : bool :=
  match a, b with
  | CStr x, CStr y => if str_eq_dec x y then true else false
  | _, _ => false
  end.

Definition verdict (a b : Cell) : Verdict :=
  if same_string a b then Equal
  else if stronger a b then AStronger
  else if stronger b a then BStronger
  else Divergent.

End Spec.

(** A row whose six policy cells all hold [v]. *)
Definition uniform (v : Cell) : PolicyCells :=
  {| v_prevention := v; v_administrative := v; v_criminal_justice := v;
     v_surveillance := v; v_rehab_reintegration := v; v_women_children_notes := v |}.

(** A loaded row with the given country, status and policy cells; its
    completeness is the one the loader computes. *)
Definition mk_row (name status : Cell) (p : PolicyCells) : Row :=
  {| country := name;
     last_update := None;
     review_status := status;
     policy := p;
     notes := CNaN;
     completeness_pct := calc_country_completeness (get p) |}.

Definition mk_raw (name status : Cell) (p : PolicyCells) : RawRow :=
  {| raw_country := name;
     raw_last_update := CNaN;
     raw_review_status := status;
     raw_policy := p;
     raw_notes := CNaN |}.

(** A date parser that recognises nothing. *)
Definition no_dates : list Cell -> nat -> Timestamp := fun _ _ => None.

(** The rows whose country is present and whose status is one of the three
    options of the status filter. *)
Definition selectable (r : Row) : bool :=
  match country r with
  | CStr _ => isin (review_status r) STATUS_OPTIONS
  | CNaN => false
  end.

(** The rows of [df] whose country is [name]. *)
Definition matching (df : DataFrame) (name : str) : DataFrame :=
  filter (fun r => cell_eq (country r) (CStr name)) df.

(** Sample tables. *)
Definition padded_yes : PolicyCells := uniform (CStr (lit " Yes ")).
Definition padded_no : PolicyCells := uniform (CStr (lit " No ")).

Definition nameless_raw : RawRow :=
  mk_raw CNaN (CStr (lit "Green")) (uniform (CStr Yes)).

Definition blue_df : DataFrame :=
  [mk_row (CStr (lit "Atlantis")) (CStr (lit "Blue")) (uniform (CStr Yes))].

Definition two_df : DataFrame :=
  [mk_row (CStr (lit "France")) (CStr (lit "Green")) (uniform (CStr Yes));
   mk_row (CStr (lit "Iraq")) (CStr (lit "Red")) (uniform (CStr No))].

(** A country whose first policy value is missing from the CSV. *)
Definition missing_prevention : PolicyCells :=
  {| v_prevention := CNaN;
     v_administrative := CStr Yes;
     v_criminal_justice := CStr Yes;
     v_surveillance := CStr Partial;
     v_rehab_reintegration := CStr No;
     v_women_children_notes := CStr Yes |}.

(** Two countries, so that the comparator panel runs its comparison. *)
Definition gap_two_df : DataFrame :=
  [mk_row (CStr (lit "Iraq")) (CStr (lit "Red")) missing_prevention;
   mk_row (CStr (lit "France")) (CStr (lit "Green")) (uniform (CStr Yes))].

(* ================================================================= *)
(** ** Display helpers and charts *)

Definition STATUS_EMOJI : list (str * str) :=
  [(lit "Green", [128994%N]);    (* U+1F7E2, green circle *)
   (lit "Yellow", [128993%N]);   (* U+1F7E1, yellow circle *)
   (lit "Red", [128308%N])].     (* U+1F534, red circle *)

(** [status_badge(status)]; the default badge is U+26AA, a white circle.  A
    missing status is no key of the dict and prints as "nan". *)
Definition status_badge (status : Cell) : str :=
  let emoji :=
    match status with
    | CStr s => dict_get STATUS_EMOJI s [9898%N]
    | CNaN => [9898%N]
    end in
  emoji ++ lit " " ++ py_str status.

(** [series.value_counts()]: each distinct non-missing value with the number
    of its occurrences.  pandas orders the entries by count; the [reindex]
    that follows reads them by key only. *)
Definition value_counts (series : list Cell) : list (str * nat) :=
  map (fun v => (v, sum_true (map (fun c => cell_eq c (CStr v)) series)))
      (unique (dropna series)).

(** [counts.reindex(labels, fill_value=...)] *)
Definition reindex (counts : list (str * nat)) (labels : list str) (fill_value : nat)
  : list (str * nat) :=
  map (fun label => (label, dict_get counts label fill_value)) labels.

(** Lines 154 to 160: the data of the status chart. *)
Definition status_counts (fdf : DataFrame) : list (str * nat) :=
  reindex (value_counts (map review_status fdf)) STATUS_OPTIONS 0%nat.

(** Lines 173 and 174: the status column of the displayed table. *)
Definition display_status (fdf : DataFrame) : list str :=
  map (fun r => status_badge (review_status r)) fdf.

(** Lines 197 to 243 on first display: each selector shows the option at its
    default index, 0 for country A and [min(1, len(countries)-1)] for
    country B. *)
Definition initial_comparator (df : DataFrame) : option Panel :=
  let options := countries df in
  if (2 <=? List.length options)%nat then
    match nth_error options 0,
          nth_error options (Nat.min 1 (List.length options - 1)) with
    | Some country_a, Some country_b => comparator df country_a country_b
    | _, _ => None
    end
  else Some NotEnoughData.

(* ================================================================= *)
(** ** Reference notions for the properties below *)

(** Half points of a stripped value: Yes 2, Partial 1, anything else 0. *)
Definition str_points (s : str) : Z :=
  if PyStr.eqb s Yes then 2 else if PyStr.eqb s Partial then 1 else 0.

Definition points (v : Cell) : Z := str_points (PyStr.strip (py_str v)).

Definition total_points (row : PolicyColumn -> Cell) : Z :=
  fold_right (fun col acc => points (row col) + acc) 0 POLICY_COLUMNS.

(** The score, in tenths, of a row with [k] half points out of 12. *)
Definition tenths_of_points (k : Z) : Z := round_half_even (250 * k) 3.

(** The verdict seen from the other side. *)
Definition swap_verdict (v : Verdict) : Verdict :=
  match v with
  | Equal => Equal
  | AStronger => BStronger
  | BStronger => AStronger
  | Divergent => Divergent
  end.

(** [a < b] on strings, as a relation. *)
Definition str_lt (a b : str) : Prop := PyStr.ltb a b = true.

(** 1 for a value that is the literal "No", 0 otherwise. *)
Definition is_no (v : Cell) : Z := if cell_eq v (CStr No) then 1 else 0.

(** The values of one policy column. *)
Definition column (df : DataFrame) (col : PolicyColumn) : list Cell :=
  map (fun r => get (policy r) col) df.

(* ================================================================= *)
(** ** Strings and cells *)

Lemma eqb_eq (a b : str) : PyStr.eqb a b = true <-> a = b.
Proof.
  revert b; induction a as [|x a IH]; intros [|y b]; simpl; split;
    try reflexivity; try discriminate.
  - intros H. apply andb_true_iff in H as [Hx Hab].
    apply N.eqb_eq in Hx. apply IH in Hab. congruence.
  - intros H. injection H as -> ->.
    rewrite N.eqb_refl. simpl. apply IH. reflexivity.
Qed.

Lemma eqb_refl (a : str) : PyStr.eqb a a = true.
Proof. apply eqb_eq. reflexivity. Qed.

Lemma eqb_neq (a b : str) : PyStr.eqb a b = false <-> a <> b.
Proof.
  rewrite <- eqb_eq. destruct (PyStr.eqb a b); split; congruence.
Qed.

Lemma cell_eq_true (a b : Cell) :
  cell_eq a b = true <-> exists s, a = CStr s /\ b = CStr s.
Proof.
  destruct a as [x|], b as [y|]; simpl; split; try discriminate.
  - intros H. apply eqb_eq in H. subst. eauto.
  - intros [s [Ha Hb]]. injection Ha as ->. injection Hb as ->. apply eqb_refl.
  - intros [s [_ Hb]]. discriminate.
  - intros [s [Ha _]]. discriminate.
  - intros [s [Ha _]]. discriminate.
Qed.

Lemma cell_eq_CStr (v : Cell) (s : str) : cell_eq v (CStr s) = true <-> v = CStr s.
Proof.
  rewrite cell_eq_true. split.
  - intros [t [Ha Hb]]. congruence.
  - intros ->. eauto.
Qed.

Lemma lstrip_idem (s : str) : PyStr.lstrip (PyStr.lstrip s) = PyStr.lstrip s.
Proof.
  induction s as [|c s IH]; simpl; [reflexivity|].
  destruct (PyStr.is_space c) eqn:E; [exact IH|].
  simpl. rewrite E. reflexivity.
Qed.

Lemma lstrip_snoc (l : str) (c : N) :
  PyStr.is_space c = false -> PyStr.lstrip (l ++ [c]) = PyStr.lstrip l ++ [c].
Proof.
  intros Hc. induction l as [|x l IH]; simpl.
  - rewrite Hc. reflexivity.
  - destruct (PyStr.is_space x); [exact IH | reflexivity].
Qed.

Lemma lstrip_head (s : str) :
  PyStr.lstrip s = [] \/
  exists c t, PyStr.lstrip s = c :: t /\ PyStr.is_space c = false.
Proof.
  induction s as [|c s IH]; simpl; [now left|].
  destruct (PyStr.is_space c) eqn:E; [exact IH|].
  right. eauto.
Qed.

Lemma rstrip_idem (s : str) : PyStr.rstrip (PyStr.rstrip s) = PyStr.rstrip s.
Proof.
  unfold PyStr.rstrip. rewrite rev_involutive, lstrip_idem. reflexivity.
Qed.

Lemma lstrip_rstrip (t : str) :
  PyStr.lstrip t = t -> PyStr.lstrip (PyStr.rstrip t) = PyStr.rstrip t.
Proof.
  intros Ht. destruct (lstrip_head t) as [E | [c [u [E Hc]]]]; rewrite Ht in E.
  - subst t. reflexivity.
  - subst t. unfold PyStr.rstrip. simpl rev at 2 4.
    rewrite (lstrip_snoc _ _ Hc), rev_app_distr. simpl. rewrite Hc. reflexivity.
Qed.

(** Stripping twice is stripping once. *)
Lemma strip_idem (s : str) : PyStr.strip (PyStr.strip s) = PyStr.strip s.
Proof.
  unfold PyStr.strip at 1.
  assert (H : PyStr.lstrip (PyStr.strip s) = PyStr.strip s).
  { unfold PyStr.strip. apply lstrip_rstrip, lstrip_idem. }
  rewrite H. unfold PyStr.strip. apply rstrip_idem.
Qed.

(* ================================================================= *)
(** ** Completeness score *)

(** The dictionary lookup and the specification's mapping agree, and only
    three scores exist. *)
Lemma score_cases (s : str) :
  (dict_get YES_SCORE s 0%float = 1%float /\ Spec.field_score s = 1%Q) \/
  (dict_get YES_SCORE s 0%float = 0.5%float /\ Spec.field_score s = (1 # 2)%Q) \/
  (dict_get YES_SCORE s 0%float = 0%float /\ Spec.field_score s = 0%Q).
Proof.
  unfold YES_SCORE, Spec.field_score. cbn [dict_get].
  destruct (Spec.str_eq_dec s Yes) as [->|N1].
  { rewrite eqb_refl. left. split; reflexivity. }
  assert (E1 : PyStr.eqb Yes s = false) by (apply eqb_neq; congruence).
  rewrite E1.
  destruct (Spec.str_eq_dec s Partial) as [->|N2].
  { rewrite eqb_refl. right; left. split; reflexivity. }
  assert (E2 : PyStr.eqb Partial s = false) by (apply eqb_neq; congruence).
  rewrite E2.
  destruct (PyStr.eqb No s); destruct (Spec.str_eq_dec s No);
    right; right; split; reflexivity.
Qed.

Ltac score_split s :=
  let Ef := fresh "Ef" in
  let Eq := fresh "Eq" in
  destruct (score_cases s) as [[Ef Eq] | [[Ef Eq] | [Ef Eq]]];
  rewrite Ef; try rewrite Eq; clear Ef Eq.

Ltac six_scores row :=
  score_split (PyStr.strip (py_str (row prevention)));
  score_split (PyStr.strip (py_str (row administrative)));
  score_split (PyStr.strip (py_str (row criminal_justice)));
  score_split (PyStr.strip (py_str (row surveillance)));
  score_split (PyStr.strip (py_str (row rehab_reintegration)));
  score_split (PyStr.strip (py_str (row women_children_notes))).

(** The float handed to [round] is always a finite number. *)
Lemma completeness_arg_finite (row : PolicyColumn -> Cell) :
  match Prim2SF (completeness_arg row) with
  | S754_zero _ | S754_finite _ _ _ => True
  | _ => False
  end.
Proof.
  unfold completeness_arg, POLICY_COLUMNS. cbn [map List.length].
  six_scores row; vm_compute; exact I.
Qed.

(** The binary64 computation of the script gives the exactly rounded
    rational of the specification. *)
Lemma calc_matches_spec (row : PolicyColumn -> Cell) :
  calc_country_completeness row = Spec.completeness row.
Proof.
  unfold calc_country_completeness, completeness_arg, Spec.completeness,
    POLICY_COLUMNS.
  cbn [map List.length].
  six_scores row; vm_compute; reflexivity.
Qed.

Lemma calc_range (row : PolicyColumn -> Cell) :
  0 <= calc_country_completeness row <= 1000.
Proof.
  unfold calc_country_completeness, completeness_arg, POLICY_COLUMNS.
  cbn [map List.length].
  six_scores row; vm_compute; split; discriminate.
Qed.

(** Scoring reads a value only through its stripped text. *)
Lemma calc_ext (r1 r2 : PolicyColumn -> Cell) :
  (forall col, PyStr.strip (py_str (r1 col)) = PyStr.strip (py_str (r2 col))) ->
  calc_country_completeness r1 = calc_country_completeness r2.
Proof.
  intros H. unfold calc_country_completeness, completeness_arg.
  cbn zeta. rewrite !length_map.
  do 2 f_equal. f_equal. f_equal.
  apply map_ext. intros col. rewrite H. reflexivity.
Qed.

Lemma mapi_from_Forall {A B : Type} (P : B -> Prop) (f : nat -> A -> B) :
  (forall i x, P (f i x)) -> forall l i, Forall P (mapi_from i f l).
Proof.
  intros H l. induction l as [|x l IH]; intros i; simpl; constructor; auto.
Qed.

Lemma mapi_from_map {A B C : Type} (g : B -> C) (h : A -> C) (f : nat -> A -> B) :
  (forall i x, g (f i x) = h x) ->
  forall l i, map g (mapi_from i f l) = map h l.
Proof.
  intros H l. induction l as [|x l IH]; intros i; simpl; [reflexivity|].
  rewrite H, IH. reflexivity.
Qed.

(** C1 (amended): for every record the completeness score equals
    round(100 x mean of the six field scores, 1), each field value being
    scored after [str(...).strip()] by Yes -> 1.0, Partial -> 0.5, No -> 0.0,
    anything else -> 0.0; the score lies in [0, 100] (0 to 1000 tenths).
    This holds for the function and for every row the loader produces. *)
Theorem completeness_is_rounded_mean
    (to_datetime : list Cell -> nat -> Timestamp) (raw : list RawRow)
    (row : PolicyColumn -> Cell) :
  (calc_country_completeness row = Spec.completeness row
   /\ 0 <= calc_country_completeness row <= 1000)
  /\ Forall (fun r => completeness_pct r = Spec.completeness (get (policy r))
                      /\ 0 <= completeness_pct r <= 1000)
            (load to_datetime raw).
Proof.
  split.
  - split; [apply calc_matches_spec | apply calc_range].
  - unfold load. apply mapi_from_Forall. intros i x. cbn [completeness_pct policy].
    split; [apply calc_matches_spec | apply calc_range].
Qed.

(** C1 as stated fails: a row whose six values are " Yes " is scored 100.0 by
    the script, while scoring the stored strings as they stand gives 0.0. *)
Lemma completeness_literal_fails :
  calc_country_completeness (get padded_yes) = 1000
  /\ Spec.completeness_literal (get padded_yes) = 0.
Proof. split; vm_compute; reflexivity. Qed.

(* ================================================================= *)
(** ** Gap count *)

Lemma fold_count_shift (bs : list bool) (n : nat) :
  fold_left (fun k (b : bool) => if b then S k else k) bs n
  = (n + sum_true bs)%nat.
Proof.
  unfold sum_true. revert n. induction bs as [|b bs IH]; intros n; simpl.
  - lia.
  - rewrite IH. rewrite (IH (if b then 1%nat else 0%nat)).
    destruct b; lia.
Qed.

Lemma sum_true_cons (b : bool) (bs : list bool) :
  sum_true (b :: bs) = ((if b then 1 else 0) + sum_true bs)%nat.
Proof.
  unfold sum_true at 1. simpl. rewrite fold_count_shift. destruct b; lia.
Qed.

Lemma count_occ_No (v : Cell) (l : list Cell) :
  count_occ Spec.Cell_eq_dec (v :: l) (CStr No)
  = ((if cell_eq v (CStr No) then 1 else 0)
     + count_occ Spec.Cell_eq_dec l (CStr No))%nat.
Proof.
  simpl. destruct (Spec.Cell_eq_dec v (CStr No)) as [E|N].
  - apply cell_eq_CStr in E. rewrite E. reflexivity.
  - destruct (cell_eq v (CStr No)) eqn:E; [|reflexivity].
    apply cell_eq_CStr in E. contradiction.
Qed.

(** The column-by-column count of the script is the count of literal "No"
    values over all rows. *)
Lemma count_gap_fields_raw (df : DataFrame) :
  count_gap_fields df = Spec.gap_count df.
Proof.
  unfold Spec.gap_count, Spec.policy_values.
  induction df as [|r df IH].
  - reflexivity.
  - cbn [flat_map]. rewrite count_occ_app, <- IH.
    unfold count_gap_fields, POLICY_COLUMNS. cbn [fold_left map].
    rewrite !sum_true_cons, !count_occ_No. cbn [count_occ]. lia.
Qed.

(** C3: the gap count of a table is the number of policy values, over all
    rows and the six fields, that are exactly the literal "No"; a table
    without such a value has gap count 0 whatever else it holds. *)
Theorem gap_count_is_literal_No (df : DataFrame) :
  count_gap_fields df = Spec.gap_count df
  /\ ((forall v, In v (Spec.policy_values df) -> v <> CStr No) ->
      count_gap_fields df = 0%nat).
Proof.
  split; [apply count_gap_fields_raw|].
  intros H. rewrite count_gap_fields_raw. unfold Spec.gap_count.
  apply count_occ_not_In. intros Hin. exact (H _ Hin eq_refl).
Qed.

(** C10: scoring looks at the stripped text of a value (so " Yes " scores
    as "Yes"), the gap count compares the stored value itself with "No"; a
    row of " No " values scores 0.0 and has no gap. *)
Theorem strip_in_scoring_not_in_gaps (row : PolicyColumn -> Cell) (df : DataFrame) :
  calc_country_completeness row
  = calc_country_completeness (fun col => CStr (PyStr.strip (py_str (row col))))
  /\ calc_country_completeness (get padded_yes)
     = calc_country_completeness (get (uniform (CStr Yes)))
  /\ calc_country_completeness (get padded_yes) = 1000
  /\ count_gap_fields df
     = count_occ Spec.Cell_eq_dec (Spec.policy_values df) (CStr No)
  /\ calc_country_completeness (get padded_no) = 0
  /\ count_gap_fields [mk_row (CStr (lit "X")) (CStr (lit "Red")) padded_no] = 0%nat
  /\ count_gap_fields [mk_row (CStr (lit "X")) (CStr (lit "Red")) (uniform (CStr No))]
     = 6%nat.
Proof.
  split.
  { apply calc_ext. intros col. cbn [py_str]. symmetry. apply strip_idem. }
  split; [vm_compute; reflexivity|].
  split; [vm_compute; reflexivity|].
  split; [apply count_gap_fields_raw|].
  repeat split; vm_compute; reflexivity.
Qed.

(* ================================================================= *)
(** ** Verdicts of the comparator *)

Lemma eqb_dec (x y : str) :
  PyStr.eqb x y = if Spec.str_eq_dec x y then true else false.
Proof.
  destruct (Spec.str_eq_dec x y) as [E|N].
  - apply eqb_eq. exact E.
  - apply eqb_neq. exact N.
Qed.

Ltac absurd_literal :=
  exfalso;
  match goal with
  | H : ?a <> ?a |- _ => apply H; reflexivity
  | H : _ = _ |- _ => vm_compute in H; discriminate H
  end.

Ltac decide_strings :=
  repeat match goal with
         | |- context [Spec.str_eq_dec ?a ?b] =>
             destruct (Spec.str_eq_dec a b); subst
         end.

(** The [if]/[elif] chain and the specification's rule give the same verdict. *)
Lemma verdict_agree (a b : Cell) : verdict a b = Spec.verdict a b.
Proof.
  unfold verdict, Spec.verdict, Spec.stronger, Spec.same_string, isin.
  cbn [existsb].
  destruct a as [x|], b as [y|]; cbn [cell_eq Spec.strength];
    rewrite ?eqb_dec; decide_strings;
    try reflexivity; try congruence; absurd_literal.
Qed.

Lemma verdict_Equal (a b : Cell) :
  verdict a b = Equal <-> exists s, a = CStr s /\ b = CStr s.
Proof.
  rewrite <- cell_eq_true. unfold verdict.
  destruct (cell_eq a b); [tauto|].
  split; [|discriminate].
  repeat match goal with
         | |- context [if ?c then _ else _] => destruct c
         end; discriminate.
Qed.

(** C2: for two records and a policy field, the verdict of the script is
    the one of the rule "Equal if same literal string, else A-stronger if A
    is strictly stronger within Yes > Partial > No, else B-stronger if B is,
    else Divergent"; Equal arises exactly for the same literal string; and
    this verdict is what the comparison row of that field shows. *)
Theorem verdict_follows_rule
    (country_a country_b : str) (row_a row_b : Row) (col : PolicyColumn) :
  let a := get (policy row_a) col in
  let b := get (policy row_b) col in
  verdict a b = Spec.verdict a b
  /\ (verdict a b = Equal <-> exists s, a = CStr s /\ b = CStr s)
  /\ (verdict a b = AStronger <->
      Spec.same_string a b = false /\ Spec.stronger a b = true)
  /\ (verdict a b = BStronger <->
      Spec.same_string a b = false /\ Spec.stronger a b = false
      /\ Spec.stronger b a = true)
  /\ (verdict a b = Divergent <->
      Spec.same_string a b = false /\ Spec.stronger a b = false
      /\ Spec.stronger b a = false)
  /\ In {| Kategori := CATEGORY_LABELS col;
           value_a := a;
           value_b := b;
           Catatan := note_text country_a country_b (Spec.verdict a b) |}
        (compare_rows country_a country_b row_a row_b).
Proof.
  intros a b.
  split; [apply verdict_agree|].
  split; [apply verdict_Equal|].
  rewrite verdict_agree. unfold Spec.verdict.
  repeat split;
    try (destruct (Spec.same_string a b), (Spec.stronger a b), (Spec.stronger b a);
         intuition congruence).
  unfold compare_rows. apply in_map_iff. exists col. split.
  - fold a b. rewrite verdict_agree. reflexivity.
  - unfold POLICY_COLUMNS. destruct col; simpl; tauto.
Qed.

(* ================================================================= *)
(** ** The list of countries *)

Lemma In_dropna (name : str) (series : list Cell) :
  In name (dropna series) <-> In (CStr name) series.
Proof.
  induction series as [|v series IH]; simpl; [tauto|].
  destruct v as [s|]; simpl; rewrite IH; split.
  - intros [->|H]; auto.
  - intros [E|H]; [injection E as ->|]; auto.
  - auto.
  - intros [E|H]; [discriminate|auto].
Qed.

Lemma In_unique (x : str) (l : list str) : In x (unique l) <-> In x l.
Proof.
  induction l as [|y l IH]; simpl; [tauto|].
  rewrite filter_In, IH. split.
  - intros [->|[H _]]; auto.
  - intros [->|H]; [auto|].
    destruct (Spec.str_eq_dec y x) as [->|N]; [auto|].
    right. split; [exact H|]. apply negb_true_iff, eqb_neq. exact N.
Qed.

Lemma In_insert_sorted (x y : str) (l : list str) :
  In x (insert_sorted y l) <-> x = y \/ In x l.
Proof.
  induction l as [|z l IH]; simpl.
  - intuition congruence.
  - destruct (PyStr.leb y z); simpl; rewrite ?IH; intuition congruence.
Qed.

Lemma In_sorted (x : str) (l : list str) : In x (sorted l) <-> In x l.
Proof.
  unfold sorted. induction l as [|y l IH]; simpl; [tauto|].
  rewrite In_insert_sorted, IH. intuition congruence.
Qed.

(** The selectable names are the countries that occur in the table. *)
Lemma In_countries (df : DataFrame) (name : str) :
  In name (countries df) <-> In (CStr name) (map country df).
Proof.
  unfold countries. rewrite In_sorted, In_unique, In_dropna. tauto.
Qed.

Lemma isin_In (v : Cell) (values : list str) :
  isin v values = true <-> exists s, v = CStr s /\ In s values.
Proof.
  unfold isin. rewrite existsb_exists. split.
  - intros [s [Hin Heq]]. apply cell_eq_CStr in Heq. eauto.
  - intros [s [-> Hin]]. exists s. split; [exact Hin|]. apply cell_eq_CStr. reflexivity.
Qed.

Lemma isin_NaN (values : list str) : isin CNaN values = false.
Proof.
  unfold isin. induction values as [|x l IH]; simpl; [reflexivity|exact IH].
Qed.

(* ================================================================= *)
(** ** Lookups of the comparator *)

Lemma lookup_None (df : DataFrame) (name : str) :
  lookup df name = None <-> ~ In (CStr name) (map country df).
Proof.
  unfold lookup. induction df as [|r df IH]; simpl; [tauto|].
  destruct (cell_eq (country r) (CStr name)) eqn:E.
  - apply cell_eq_CStr in E. simpl. split; [discriminate|].
    intros H. exfalso. apply H. left. exact E.
  - rewrite IH. split.
    + intros H [Hr|Hin]; [|auto].
      apply cell_eq_CStr in Hr. congruence.
    + intros H Hin. apply H. right. exact Hin.
Qed.

Lemma lookup_Some (df : DataFrame) (name : str) (r : Row) :
  lookup df name = Some r ->
  In r df /\ country r = CStr name /\ exists rest, matching df name = r :: rest.
Proof.
  unfold lookup, matching.
  destruct (filter _ df) as [|r0 rest] eqn:E; simpl; [discriminate|].
  intros H. injection H as <-.
  assert (Hin : In r0 (filter (fun r => cell_eq (country r) (CStr name)) df))
    by (rewrite E; left; reflexivity).
  apply filter_In in Hin as [Hin Hc]. apply cell_eq_CStr in Hc. eauto.
Qed.

Lemma matching_nil (df : DataFrame) (name : str) :
  ~ In name (dropna (map country df)) -> matching df name = [].
Proof.
  intros H. unfold matching. induction df as [|r df IH]; simpl; [reflexivity|].
  destruct (cell_eq (country r) (CStr name)) eqn:E.
  - exfalso. apply H. apply In_dropna. left. apply cell_eq_CStr. exact E.
  - apply IH. intros Hin. apply H. apply In_dropna. right.
    apply In_dropna. exact Hin.
Qed.

(** With distinct country names a name matches at most one row. *)
Lemma matching_unique (df : DataFrame) (name : str) :
  NoDup (dropna (map country df)) -> (List.length (matching df name) <= 1)%nat.
Proof.
  induction df as [|r df IH]; simpl; [lia|].
  unfold matching in *. cbn [filter].
  destruct (country r) as [s|] eqn:Hc; cbn [dropna cell_eq].
  - intros Hnd. inversion Hnd as [|? ? Hnotin Hnd']; subst.
    destruct (PyStr.eqb s name) eqn:E.
    + apply eqb_eq in E. subst s.
      pose proof (matching_nil df name Hnotin) as Hm. unfold matching in Hm.
      rewrite Hm. simpl. lia.
    + apply IH. exact Hnd'.
  - intros Hnd. apply IH. exact Hnd.
Qed.

(** C4: a name offered by the country selectors resolves to a record of the
    table, the first and, country names being distinct, the only one with
    that country; the comparison raises the lookup error exactly when one of
    the two names matches no row of the table, which never happens for two
    names taken from the selectors. *)
Theorem lookup_resolves_or_fails (df : DataFrame) (country_a country_b : str) :
  (forall name, In name (countries df) ->
     exists r, lookup df name = Some r /\ In r df /\ country r = CStr name
               /\ (NoDup (dropna (map country df)) -> matching df name = [r]))
  /\ (compare df country_a country_b = None <->
      lookup df country_a = None \/ lookup df country_b = None)
  /\ (forall name, lookup df name = None <-> ~ In (CStr name) (map country df))
  /\ (In country_a (countries df) -> In country_b (countries df) ->
      exists panel, comparator df country_a country_b = Some panel).
Proof.
  assert (Hres : forall name, In name (countries df) ->
            exists r, lookup df name = Some r).
  { intros name Hin. apply In_countries in Hin.
    destruct (lookup df name) as [r|] eqn:E; [eauto|].
    apply lookup_None in E. contradiction. }
  split; [|split; [|split]].
  - intros name Hin. destruct (Hres name Hin) as [r Hr].
    exists r. destruct (lookup_Some _ _ _ Hr) as [H1 [H2 [rest H3]]].
    repeat split; auto.
    intros Hnd. pose proof (matching_unique df name Hnd) as Hlen.
    rewrite H3 in *. destruct rest; [reflexivity|simpl in Hlen; lia].
  - unfold compare.
    destruct (lookup df country_a); destruct (lookup df country_b);
      split; try discriminate; auto; intros [H|H]; discriminate.
  - intros name. apply lookup_None.
  - intros Ha Hb. unfold comparator, compare.
    destruct (Hres _ Ha) as [ra Hra]. destruct (Hres _ Hb) as [rb Hrb].
    rewrite Hra, Hrb.
    destruct (2 <=? List.length (countries df))%nat; eauto.
Qed.

(* ================================================================= *)
(** ** Loading *)

Lemma mapi_from_length {A B : Type} (f : nat -> A -> B) (l : list A) (i : nat) :
  List.length (mapi_from i f l) = List.length l.
Proof.
  revert i. induction l as [|x l IH]; intros i; simpl; [reflexivity|].
  rewrite IH. reflexivity.
Qed.

(** C5 (amended): loading drops no row at all, not even one whose country
    is missing: the loaded table has one row per input row, in input order,
    with the country, status and policy cells of the input.  A missing
    country only stays out of the list of selectable countries, which holds
    exactly the names present in the input; nothing is raised. *)
Theorem load_keeps_every_row
    (to_datetime : list Cell -> nat -> Timestamp) (raw : list RawRow) :
  List.length (load to_datetime raw) = List.length raw
  /\ map country (load to_datetime raw) = map raw_country raw
  /\ map review_status (load to_datetime raw) = map raw_review_status raw
  /\ map policy (load to_datetime raw) = map raw_policy raw
  /\ map notes (load to_datetime raw) = map raw_notes raw
  /\ (forall name, In name (countries (load to_datetime raw)) <->
                   In (CStr name) (map raw_country raw)).
Proof.
  assert (Hc : map country (load to_datetime raw) = map raw_country raw)
    by (unfold load; apply mapi_from_map; reflexivity).
  split; [unfold load; apply mapi_from_length|].
  split; [exact Hc|].
  split; [unfold load; apply mapi_from_map; reflexivity|].
  split; [unfold load; apply mapi_from_map; reflexivity|].
  split; [unfold load; apply mapi_from_map; reflexivity|].
  intros name. rewrite In_countries, Hc. tauto.
Qed.

(** C5 as stated fails: a row with a missing country is still a row of the
    loaded table. *)
Lemma load_keeps_nameless_row :
  raw_country nameless_raw = CNaN
  /\ map country (load no_dates [nameless_raw]) = [CNaN]
  /\ List.length (load no_dates [nameless_raw]) = 1%nat.
Proof. repeat split. Qed.

(* ================================================================= *)
(** ** Filtering *)

Lemma filter_none {A : Type} (f : A -> bool) (l : list A) :
  (forall x, f x = false) -> filter f l = [].
Proof.
  intros H. induction l as [|x l IH]; simpl; [reflexivity|].
  rewrite H. exact IH.
Qed.

(** C6: with no country selected, or with no status selected, the filtered
    table is empty, whatever the table and the category focus. *)
Theorem empty_selection_filters_everything
    (df : DataFrame) (selected_countries selected_status : list str)
    (selected_category : option PolicyColumn) :
  filtered_df df [] selected_status selected_category = []
  /\ filtered_df df selected_countries [] selected_category = [].
Proof.
  unfold filtered_df. split.
  - rewrite (filter_none _ df) by reflexivity.
    destruct selected_category; reflexivity.
  - rewrite (filter_none _ df) by (intros r; apply andb_false_r).
    destruct selected_category; reflexivity.
Qed.

(** With every country and the three statuses selected and no focus, the
    filter keeps the selectable rows, in order. *)
Lemma filtered_df_default (df : DataFrame) :
  filtered_df df (countries df) STATUS_OPTIONS None = filter selectable df.
Proof.
  unfold filtered_df. apply filter_ext_in. intros r Hin. unfold selectable.
  destruct (country r) as [s|] eqn:Hc.
  - assert (H : isin (CStr s) (countries df) = true).
    { apply isin_In. exists s. split; [reflexivity|].
      apply In_countries. rewrite <- Hc. apply in_map. exact Hin. }
    rewrite H. reflexivity.
  - rewrite isin_NaN. reflexivity.
Qed.

Lemma filter_all {A : Type} (f : A -> bool) (l : list A) :
  Forall (fun x => f x = true) l -> filter f l = l.
Proof.
  induction 1 as [|x l Hx _ IH]; simpl; [reflexivity|].
  rewrite Hx, IH. reflexivity.
Qed.

(** C7 (amended): when every record has a country and a status among
    Green, Yellow and Red, filtering with all countries, the three statuses
    and no category focus returns the table itself, in its order. *)
Theorem default_filter_is_identity (df : DataFrame)
    (Hcountry : Forall (fun r => exists name, country r = CStr name) df)
    (Hstatus : Forall (fun r => In (review_status r)
                                   [CStr (lit "Green"); CStr (lit "Yellow");
                                    CStr (lit "Red")]) df) :
  filtered_df df (countries df) STATUS_OPTIONS None = df.
Proof.
  rewrite filtered_df_default. apply filter_all.
  rewrite Forall_forall in *. intros r Hin.
  destruct (Hcountry r Hin) as [name Hname].
  unfold selectable. rewrite Hname.
  apply isin_In. specialize (Hstatus r Hin). unfold STATUS_OPTIONS.
  simpl in Hstatus. destruct Hstatus as [H|[H|[H|[]]]]; rewrite <- H;
    eexists; (split; [reflexivity|]); simpl; tauto.
Qed.

Lemma default_filter_is_identity_witness :
  filtered_df two_df (countries two_df) STATUS_OPTIONS None = two_df.
Proof.
  apply default_filter_is_identity.
  - repeat constructor; eexists; reflexivity.
  - repeat constructor; simpl; tauto.
Defined.

(** C7 as stated fails: a record with a status outside the three options
    is dropped although every country and every status option is selected. *)
Lemma default_filter_drops_unknown_status :
  List.length blue_df = 1%nat
  /\ filtered_df blue_df (countries blue_df) STATUS_OPTIONS None = [].
Proof. split; vm_compute; reflexivity. Qed.

(* ================================================================= *)
(** ** KPI cards *)

(** C8: over an empty filtered table the indicators are total 0, average
    completeness 0.0, gap count 0 and zero rows of each status; the mean is
    not even asked for. *)
Theorem kpis_of_empty_table (mean_round_1 : list Z -> Z) (df : DataFrame) :
  kpis mean_round_1 df []
  = {| total_country := 0;
       total_all := List.length df;
       green_count := 0;
       yellow_count := 0;
       red_count := 0;
       avg_completeness := 0;
       gap_fields := 0 |}.
Proof. reflexivity. Qed.

(* ================================================================= *)
(** ** A country compared with itself *)

Lemma verdict_self_present (s : str) : verdict (CStr s) (CStr s) = Equal.
Proof. unfold verdict. simpl. rewrite eqb_refl. reflexivity. Qed.

(** A missing value is not equal to itself. *)
Lemma verdict_self_missing : verdict CNaN CNaN = Divergent.
Proof. reflexivity. Qed.

Lemma summary_text_self (name : str) (score : Z) :
  summary_text name name score score
  = lit "Secara umum **" ++ name ++ lit "** dan **" ++ name
    ++ lit "** memiliki tingkat kelengkapan yang setara ("
    ++ format_tenths score ++ lit "%).".
Proof. unfold summary_text. rewrite Z.ltb_irrefl. reflexivity. Qed.

(** When the six policy values of a country are all present, comparing the
    country with itself shows "Sama" in every category and the "setara"
    summary with its score. *)
Lemma compare_self_present (df : DataFrame) (name : str) (r : Row) :
  lookup df name = Some r ->
  (forall col, exists s, get (policy r) col = CStr s) ->
  exists rows,
    compare df name name = Some (rows, summary_text name name
                                         (completeness_pct r) (completeness_pct r))
    /\ map Catatan rows = map (fun _ => lit "Sama") POLICY_COLUMNS.
Proof.
  intros Hl Hp. unfold compare. rewrite Hl.
  eexists. split; [reflexivity|].
  unfold compare_rows. rewrite map_map. apply map_ext. intros col.
  cbn [Catatan]. destruct (Hp col) as [s Hs]. rewrite Hs, verdict_self_present.
  reflexivity.
Qed.

(** C9 (amended): in a table with at least two selectable countries, a
    record compared with itself gets, in each of the six categories, "Sama"
    (Equal) when its value there is present and "Berbeda" (Divergent) when
    the value is missing; so a record whose six values are all present is
    Equal in every category.  In all cases the summary is the "setara"
    sentence with the one-decimal score of the record. *)
Theorem self_comparison_by_presence (df : DataFrame) (name : str) (r : Row)
    (Htwo : (2 <= List.length (countries df))%nat)
    (Hfound : lookup df name = Some r) :
  exists rows,
    compare df name name
    = Some (rows,
            lit "Secara umum **" ++ name ++ lit "** dan **" ++ name
            ++ lit "** memiliki tingkat kelengkapan yang setara ("
            ++ format_tenths (completeness_pct r) ++ lit "%).")
    /\ comparator df name name
       = Some (Comparison rows
                 (lit "Secara umum **" ++ name ++ lit "** dan **" ++ name
                  ++ lit "** memiliki tingkat kelengkapan yang setara ("
                  ++ format_tenths (completeness_pct r) ++ lit "%)."))
    /\ map Catatan rows
       = map (fun col => match get (policy r) col with
                         | CStr _ => lit "Sama"
                         | CNaN => lit "Berbeda"
                         end) POLICY_COLUMNS
    /\ ((forall col, exists s, get (policy r) col = CStr s) ->
        map Catatan rows = map (fun _ => lit "Sama") POLICY_COLUMNS).
Proof.
  assert (Hrows : map Catatan (compare_rows name name r r)
                  = map (fun col => match get (policy r) col with
                                    | CStr _ => lit "Sama"
                                    | CNaN => lit "Berbeda"
                                    end) POLICY_COLUMNS).
  { unfold compare_rows. rewrite map_map. apply map_ext. intros col.
    cbn [Catatan]. destruct (get (policy r) col) as [s|].
    - rewrite verdict_self_present. reflexivity.
    - rewrite verdict_self_missing. reflexivity. }
  exists (compare_rows name name r r).
  assert (Hc : compare df name name
               = Some (compare_rows name name r r,
                       lit "Secara umum **" ++ name ++ lit "** dan **" ++ name
                       ++ lit "** memiliki tingkat kelengkapan yang setara ("
                       ++ format_tenths (completeness_pct r) ++ lit "%).")).
  { unfold compare. rewrite Hfound, summary_text_self. reflexivity. }
  split; [exact Hc|]. split; [|split].
  - unfold comparator. rewrite Hc. apply Nat.leb_le in Htwo. rewrite Htwo.
    reflexivity.
  - exact Hrows.
  - intros Hp. rewrite Hrows. apply map_ext. intros col.
    destruct (Hp col) as [s Hs]. rewrite Hs. reflexivity.
Qed.

Lemma self_comparison_by_presence_witness :
  (2 <= List.length (countries two_df))%nat
  /\ exists rows,
       comparator two_df (lit "France") (lit "France")
       = Some (Comparison rows
                 (lit "Secara umum **France** dan **France** memiliki tingkat kelengkapan yang setara (100.0%)."))
       /\ map Catatan rows = map (fun _ => lit "Sama") POLICY_COLUMNS.
Proof.
  assert (Htwo : (2 <= List.length (countries two_df))%nat)
    by (vm_compute; apply le_n).
  split; [exact Htwo|].
  destruct (self_comparison_by_presence two_df (lit "France")
              (mk_row (CStr (lit "France")) (CStr (lit "Green")) (uniform (CStr Yes)))
              Htwo eq_refl)
    as [rows [_ [Hpanel [_ Hsame]]]].
  exists rows. split.
  - exact Hpanel.
  - apply Hsame. intros col. exists Yes. destruct col; reflexivity.
Defined.

(** C9 as stated fails: in a table of two countries, the country whose
    prevention value is missing, compared with itself by the panel, gets
    "Berbeda" in that category; the summary is the "setara" one. *)
Lemma self_comparison_missing_value :
  List.length (countries gap_two_df) = 2%nat
  /\ comparator gap_two_df (lit "Iraq") (lit "Iraq")
     = Some (Comparison
               (compare_rows (lit "Iraq") (lit "Iraq")
                  (mk_row (CStr (lit "Iraq")) (CStr (lit "Red")) missing_prevention)
                  (mk_row (CStr (lit "Iraq")) (CStr (lit "Red")) missing_prevention))
               (lit "Secara umum **Iraq** dan **Iraq** memiliki tingkat kelengkapan yang setara (58.3%)."))
  /\ map Catatan
       (compare_rows (lit "Iraq") (lit "Iraq")
          (mk_row (CStr (lit "Iraq")) (CStr (lit "Red")) missing_prevention)
          (mk_row (CStr (lit "Iraq")) (CStr (lit "Red")) missing_prevention))
     = [lit "Berbeda"; lit "Sama"; lit "Sama"; lit "Sama"; lit "Sama"; lit "Sama"].
Proof. repeat split; vm_compute; reflexivity. Qed.

(* ================================================================= *)
(** ** The score as a function of half points *)

Lemma score_points (s : str) :
  (dict_get YES_SCORE s 0%float = 1%float /\ str_points s = 2 /\ s = Yes) \/
  (dict_get YES_SCORE s 0%float = 0.5%float /\ str_points s = 1 /\ s = Partial) \/
  (dict_get YES_SCORE s 0%float = 0%float /\ str_points s = 0
   /\ s <> Yes /\ s <> Partial).
Proof.
  unfold YES_SCORE, str_points. cbn [dict_get].
  rewrite (eqb_dec Yes s), (eqb_dec Partial s), (eqb_dec s Yes), (eqb_dec s Partial).
  destruct (Spec.str_eq_dec s Yes) as [->|N1].
  { left. destruct (Spec.str_eq_dec Yes Yes); [auto|contradiction]. }
  destruct (Spec.str_eq_dec Yes s) as [E|_]; [congruence|].
  destruct (Spec.str_eq_dec s Partial) as [->|N2].
  { right; left. destruct (Spec.str_eq_dec Partial Partial); [auto|contradiction]. }
  destruct (Spec.str_eq_dec Partial s) as [E|_]; [congruence|].
  right; right. destruct (PyStr.eqb No s); auto.
Qed.

Ltac points_split s :=
  let Ef := fresh "Ef" in
  let Ep := fresh "Ep" in
  destruct (score_points s) as [[Ef [Ep _]] | [[Ef [Ep _]] | [Ef [Ep _]]]];
  rewrite Ef, Ep; clear Ef Ep.

(** The score of a row is the score of its number of half points. *)
Lemma calc_by_points (row : PolicyColumn -> Cell) :
  calc_country_completeness row = tenths_of_points (total_points row).
Proof.
  unfold calc_country_completeness, completeness_arg, total_points, points,
    POLICY_COLUMNS.
  cbn [map List.length fold_right].
  points_split (PyStr.strip (py_str (row prevention)));
  points_split (PyStr.strip (py_str (row administrative)));
  points_split (PyStr.strip (py_str (row criminal_justice)));
  points_split (PyStr.strip (py_str (row surveillance)));
  points_split (PyStr.strip (py_str (row rehab_reintegration)));
  points_split (PyStr.strip (py_str (row women_children_notes)));
  vm_compute; reflexivity.
Qed.

Lemma points_range (v : Cell) : 0 <= points v <= 2.
Proof.
  unfold points, str_points.
  destruct (PyStr.eqb _ Yes); [lia|]. destruct (PyStr.eqb _ Partial); lia.
Qed.

Lemma total_points_range (row : PolicyColumn -> Cell) : 0 <= total_points row <= 12.
Proof.
  unfold total_points, POLICY_COLUMNS. cbn [fold_right].
  pose proof (points_range (row prevention)).
  pose proof (points_range (row administrative)).
  pose proof (points_range (row criminal_justice)).
  pose proof (points_range (row surveillance)).
  pose proof (points_range (row rehab_reintegration)).
  pose proof (points_range (row women_children_notes)).
  lia.
Qed.

Lemma small_cases (k : Z) :
  0 <= k <= 12 ->
  k = 0 \/ k = 1 \/ k = 2 \/ k = 3 \/ k = 4 \/ k = 5 \/ k = 6 \/ k = 7 \/ k = 8
  \/ k = 9 \/ k = 10 \/ k = 11 \/ k = 12.
Proof. lia. Qed.

Lemma tenths_of_points_strict (j k : Z) :
  0 <= j -> j < k -> k <= 12 -> tenths_of_points j < tenths_of_points k.
Proof.
  intros Hj Hjk Hk.
  assert (Cj : 0 <= j <= 12) by lia. assert (Ck : 0 <= k <= 12) by lia.
  apply small_cases in Cj, Ck.
  repeat (destruct Cj as [Cj|Cj]; [subst j|]); try subst j;
    repeat (destruct Ck as [Ck|Ck]; [subst k|]); try subst k;
    try lia; vm_compute; reflexivity.
Qed.

Lemma tenths_of_points_mono (j k : Z) :
  0 <= j -> j <= k -> k <= 12 -> tenths_of_points j <= tenths_of_points k.
Proof.
  intros Hj Hjk Hk. destruct (Z.eq_dec j k) as [->|N]; [lia|].
  apply Z.lt_le_incl, tenths_of_points_strict; lia.
Qed.

Lemma tenths_of_points_inj (j k : Z) :
  0 <= j <= 12 -> 0 <= k <= 12 ->
  tenths_of_points j = tenths_of_points k -> j = k.
Proof.
  intros Hj Hk E.
  destruct (Z.lt_trichotomy j k) as [L|[->|L]]; [|reflexivity|].
  - pose proof (tenths_of_points_strict j k). lia.
  - pose proof (tenths_of_points_strict k j). lia.
Qed.

Lemma points_two (v : Cell) : points v = 2 <-> PyStr.strip (py_str v) = Yes.
Proof.
  unfold points.
  destruct (score_points (PyStr.strip (py_str v)))
    as [[_ [E H]] | [[_ [E H]] | [_ [E [H1 H2]]]]]; rewrite E; split;
    intros H0; try lia; try congruence.
  rewrite H0 in H. vm_compute in H. discriminate H.
Qed.

Lemma points_zero (v : Cell) :
  points v = 0 <->
  PyStr.strip (py_str v) <> Yes /\ PyStr.strip (py_str v) <> Partial.
Proof.
  unfold points.
  destruct (score_points (PyStr.strip (py_str v)))
    as [[_ [E H]] | [[_ [E H]] | [_ [E [H1 H2]]]]]; rewrite E; split;
    intros H0; try lia; try tauto.
Qed.

(** X1: the completeness score is the rounded value of 100 k / 12, where k
    counts 2 for each value that strips to "Yes" and 1 for each that strips
    to "Partial"; two rows have the same score exactly when they have the
    same k, so the score does not depend on which fields hold the values. *)
Theorem score_counts_half_points (r1 r2 : PolicyColumn -> Cell) :
  calc_country_completeness r1 = round_half_even (1000 * total_points r1) 12
  /\ (calc_country_completeness r1 = calc_country_completeness r2 <->
      total_points r1 = total_points r2).
Proof.
  split.
  - rewrite calc_by_points. pose proof (total_points_range r1) as H.
    apply small_cases in H.
    repeat (destruct H as [H|H]; [rewrite H; vm_compute; reflexivity|]).
    rewrite H. vm_compute. reflexivity.
  - rewrite !calc_by_points. split.
    + apply tenths_of_points_inj; apply total_points_range.
    + intros ->. reflexivity.
Qed.

Lemma total_points_all (row : PolicyColumn -> Cell) (k : Z) :
  (forall col, points (row col) = k) -> total_points row = 6 * k.
Proof.
  intros H. unfold total_points, POLICY_COLUMNS. cbn [fold_right].
  rewrite !H. lia.
Qed.

Lemma total_points_top (row : PolicyColumn -> Cell) :
  total_points row = 12 <-> forall col, points (row col) = 2.
Proof.
  split.
  - unfold total_points, POLICY_COLUMNS. cbn [fold_right]. intros H col.
    pose proof (points_range (row prevention)).
    pose proof (points_range (row administrative)).
    pose proof (points_range (row criminal_justice)).
    pose proof (points_range (row surveillance)).
    pose proof (points_range (row rehab_reintegration)).
    pose proof (points_range (row women_children_notes)).
    destruct col; lia.
  - intros H. rewrite (total_points_all row 2 H). reflexivity.
Qed.

Lemma total_points_bottom (row : PolicyColumn -> Cell) :
  total_points row = 0 <-> forall col, points (row col) = 0.
Proof.
  split.
  - unfold total_points, POLICY_COLUMNS. cbn [fold_right]. intros H col.
    pose proof (points_range (row prevention)).
    pose proof (points_range (row administrative)).
    pose proof (points_range (row criminal_justice)).
    pose proof (points_range (row surveillance)).
    pose proof (points_range (row rehab_reintegration)).
    pose proof (points_range (row women_children_notes)).
    destruct col; lia.
  - intros H. rewrite (total_points_all row 0 H). reflexivity.
Qed.

(** X2: a row scores 100.0 exactly when each of its six values strips to
    "Yes", and 0.0 exactly when none of them strips to "Yes" or "Partial". *)
Theorem score_extremes (row : PolicyColumn -> Cell) :
  (calc_country_completeness row = 1000 <->
   forall col, PyStr.strip (py_str (row col)) = Yes)
  /\ (calc_country_completeness row = 0 <->
      forall col, PyStr.strip (py_str (row col)) <> Yes
                  /\ PyStr.strip (py_str (row col)) <> Partial).
Proof.
  rewrite calc_by_points. pose proof (total_points_range row) as R. split.
  - change 1000 with (tenths_of_points 12). split.
    + intros E. apply tenths_of_points_inj in E; [|exact R|lia].
      intros col. apply points_two. revert col. apply total_points_top. exact E.
    + intros H. f_equal. apply total_points_top. intros col.
      apply points_two, H.
  - change 0 with (tenths_of_points 0) at 1. split.
    + intros E. apply tenths_of_points_inj in E; [|exact R|lia].
      intros col. apply points_zero. revert col. apply total_points_bottom. exact E.
    + intros H. f_equal. apply total_points_bottom. intros col.
      apply points_zero, H.
Qed.

(* ================================================================= *)
(** ** Gaps against the score *)

Lemma points_no (v : Cell) : 0 <= is_no v <= 1 /\ points v <= 2 - 2 * is_no v.
Proof.
  unfold is_no. destruct (cell_eq v (CStr No)) eqn:E.
  - apply cell_eq_CStr in E. subst v. vm_compute. repeat split; discriminate.
  - pose proof (points_range v). lia.
Qed.

Lemma row_gaps (r : Row) :
  Z.of_nat (count_gap_fields [r])
  = fold_right (fun col acc => is_no (get (policy r) col) + acc) 0 POLICY_COLUMNS.
Proof.
  rewrite count_gap_fields_raw. unfold Spec.gap_count, Spec.policy_values.
  cbn [flat_map]. rewrite app_nil_r. unfold POLICY_COLUMNS.
  cbn [map fold_right]. rewrite !count_occ_No. cbn [count_occ].
  unfold is_no.
  repeat match goal with
         | |- context [cell_eq ?a ?b] => destruct (cell_eq a b)
         end; reflexivity.
Qed.

Lemma gap_bound (r : Row) :
  completeness_pct r = calc_country_completeness (get (policy r)) ->
  completeness_pct r
  <= round_half_even (1000 * (6 - Z.of_nat (count_gap_fields [r]))) 6.
Proof.
  intros ->. rewrite calc_by_points, row_gaps.
  pose proof (total_points_range (get (policy r))) as R.
  revert R. unfold total_points, POLICY_COLUMNS. cbn [fold_right].
  pose proof (points_no (get (policy r) prevention)).
  pose proof (points_no (get (policy r) administrative)).
  pose proof (points_no (get (policy r) criminal_justice)).
  pose proof (points_no (get (policy r) surveillance)).
  pose proof (points_no (get (policy r) rehab_reintegration)).
  pose proof (points_no (get (policy r) women_children_notes)).
  set (k := points _ + _). set (g := is_no _ + _). intros R.
  assert (Hk : k <= 12 - 2 * g) by (subst k g; lia).
  assert (Hg : 0 <= 12 - 2 * g <= 12) by lia.
  apply Z.le_trans with (tenths_of_points (12 - 2 * g)).
  - apply tenths_of_points_mono; lia.
  - assert (C : g = 0 \/ g = 1 \/ g = 2 \/ g = 3 \/ g = 4 \/ g = 5 \/ g = 6) by lia.
    clearbody g. clear -C.
    repeat (destruct C as [C|C]; [subst g; vm_compute; discriminate|]).
    subst g. vm_compute. discriminate.
Qed.

(** X3: every loaded record with g values equal to the literal "No" has a
    completeness score of at most round(100 (6 - g) / 6, 1). *)
Theorem gaps_cap_the_score
    (to_datetime : list Cell -> nat -> Timestamp) (raw : list RawRow) :
  Forall (fun r =>
            completeness_pct r
            <= round_half_even (1000 * (6 - Z.of_nat (count_gap_fields [r]))) 6)
         (load to_datetime raw).
Proof.
  unfold load. apply mapi_from_Forall. intros i x. apply gap_bound. reflexivity.
Qed.

(* ================================================================= *)
(** ** The comparison seen from both sides *)

Lemma same_string_sym (a b : Cell) : Spec.same_string a b = Spec.same_string b a.
Proof.
  destruct a as [x|], b as [y|]; simpl; try reflexivity.
  destruct (Spec.str_eq_dec x y), (Spec.str_eq_dec y x); congruence.
Qed.

Lemma stronger_asym (a b : Cell) :
  Spec.stronger a b = true -> Spec.stronger b a = false.
Proof.
  unfold Spec.stronger.
  destruct (Spec.strength a), (Spec.strength b); try discriminate; try reflexivity.
  intros H. apply Nat.ltb_lt in H. apply Nat.ltb_ge. lia.
Qed.

Lemma verdict_swap (a b : Cell) : verdict b a = swap_verdict (verdict a b).
Proof.
  rewrite !verdict_agree. unfold Spec.verdict.
  rewrite (same_string_sym b a).
  destruct (Spec.same_string a b); [reflexivity|].
  destruct (Spec.stronger a b) eqn:Eab.
  - rewrite (stronger_asym _ _ Eab). reflexivity.
  - destruct (Spec.stronger b a); reflexivity.
Qed.

Lemma note_text_swap (country_a country_b : str) (v : Verdict) :
  note_text country_b country_a (swap_verdict v) = note_text country_a country_b v.
Proof. destruct v; reflexivity. Qed.

(** X4: exchanging the two values turns A-stronger into B-stronger and back
    and leaves Equal and Divergent as they are. *)
Theorem verdict_is_antisymmetric (a b : Cell) :
  verdict b a = swap_verdict (verdict a b)
  /\ (verdict a b = AStronger <-> verdict b a = BStronger)
  /\ (verdict a b = Equal <-> verdict b a = Equal)
  /\ (verdict a b = Divergent <-> verdict b a = Divergent).
Proof.
  rewrite (verdict_swap a b).
  destruct (verdict a b); simpl; repeat split; intros; congruence.
Qed.

(** X5: choosing the two countries in the other order gives the same note in
    each category, with the two value columns exchanged and the categories
    in the same order. *)
Theorem compare_rows_swap (country_a country_b : str) (row_a row_b : Row) :
  compare_rows country_b country_a row_b row_a
  = map (fun row => {| Kategori := Kategori row;
                       value_a := value_b row;
                       value_b := value_a row;
                       Catatan := Catatan row |})
        (compare_rows country_a country_b row_a row_b).
Proof.
  unfold compare_rows. rewrite map_map. apply map_ext. intros col.
  cbn [Kategori value_a value_b Catatan].
  rewrite (verdict_swap (get (policy row_a) col)), note_text_swap. reflexivity.
Qed.

(** X6: when the two scores differ, the summary sentence is the same
    whichever of the two countries is chosen as A. *)
Theorem summary_text_swap (country_a country_b : str) (score_a score_b : Z)
    (Hdiff : score_a <> score_b) :
  summary_text country_b country_a score_b score_a
  = summary_text country_a country_b score_a score_b.
Proof.
  unfold summary_text.
  destruct (score_b <? score_a) eqn:E1; destruct (score_a <? score_b) eqn:E2;
    try reflexivity.
  - apply Z.ltb_lt in E1, E2. lia.
  - apply Z.ltb_ge in E1, E2. lia.
Qed.

Lemma summary_text_swap_witness :
  summary_text (lit "Iraq") (lit "France") 500 1000
  = summary_text (lit "France") (lit "Iraq") 1000 500.
Proof. apply summary_text_swap. discriminate. Defined.

(* ================================================================= *)
(** ** Verdicts against scores *)

Lemma verdict_Equal_points (a b : Cell) :
  verdict a b = Equal -> points a = points b.
Proof.
  intros H. apply verdict_Equal in H as [s [-> ->]]. reflexivity.
Qed.

Lemma verdict_AStronger_points (a b : Cell) :
  verdict a b = AStronger -> points b < points a.
Proof.
  rewrite verdict_agree. unfold Spec.verdict.
  destruct (Spec.same_string a b); [discriminate|].
  destruct (Spec.stronger a b) eqn:E;
    [|destruct (Spec.stronger b a); discriminate].
  intros _. revert E. unfold Spec.stronger.
  destruct a as [x|], b as [y|]; cbn [Spec.strength]; decide_strings;
    try discriminate; intros E; vm_compute in E; try discriminate E;
    vm_compute; reflexivity.
Qed.

Lemma total_points_le (r1 r2 : PolicyColumn -> Cell) :
  (forall col, points (r1 col) <= points (r2 col)) ->
  total_points r1 <= total_points r2.
Proof.
  intros H. unfold total_points, POLICY_COLUMNS. cbn [fold_right].
  pose proof (H prevention). pose proof (H administrative).
  pose proof (H criminal_justice). pose proof (H surveillance).
  pose proof (H rehab_reintegration). pose proof (H women_children_notes).
  lia.
Qed.

Lemma total_points_lt (r1 r2 : PolicyColumn -> Cell) (c : PolicyColumn) :
  (forall col, points (r1 col) <= points (r2 col)) ->
  points (r1 c) < points (r2 c) ->
  total_points r1 < total_points r2.
Proof.
  intros H Hc. unfold total_points, POLICY_COLUMNS. cbn [fold_right].
  pose proof (H prevention). pose proof (H administrative).
  pose proof (H criminal_justice). pose proof (H surveillance).
  pose proof (H rehab_reintegration). pose proof (H women_children_notes).
  destruct c; lia.
Qed.

(** X7: if in every category the verdict is Equal or A-stronger, the score
    of A is at least the score of B; if A is stronger in some category, the
    score of A is strictly higher and the summary names A as the more
    complete country. *)
Theorem stronger_everywhere_scores_higher
    (country_a country_b : str) (pa pb : PolicyCells)
    (Hdom : forall col, verdict (get pa col) (get pb col) = Equal
                        \/ verdict (get pa col) (get pb col) = AStronger) :
  calc_country_completeness (get pb) <= calc_country_completeness (get pa)
  /\ ((exists col, verdict (get pa col) (get pb col) = AStronger) ->
      calc_country_completeness (get pb) < calc_country_completeness (get pa)
      /\ summary_text country_a country_b
           (calc_country_completeness (get pa)) (calc_country_completeness (get pb))
         = lit "Secara umum **" ++ country_a
           ++ lit "** terlihat lebih lengkap dalam data contoh ini ("
           ++ format_tenths (calc_country_completeness (get pa))
           ++ lit "%) dibanding **" ++ country_b
           ++ lit "** (" ++ format_tenths (calc_country_completeness (get pb))
           ++ lit "%).").
Proof.
  assert (Hle : forall col, points (get pb col) <= points (get pa col)).
  { intros col. destruct (Hdom col) as [H|H].
    - apply verdict_Equal_points in H. lia.
    - apply verdict_AStronger_points in H. lia. }
  pose proof (total_points_range (get pa)) as Ra.
  pose proof (total_points_range (get pb)) as Rb.
  rewrite !calc_by_points. split.
  - apply tenths_of_points_mono; try lia. apply total_points_le. exact Hle.
  - intros [c Hc]. apply verdict_AStronger_points in Hc.
    assert (Hlt : tenths_of_points (total_points (get pb))
                  < tenths_of_points (total_points (get pa))).
    { apply tenths_of_points_strict; try lia.
      apply (total_points_lt _ _ c); assumption. }
    split; [exact Hlt|].
    unfold summary_text. apply Z.ltb_lt in Hlt. rewrite Hlt. reflexivity.
Qed.

Lemma stronger_everywhere_scores_higher_witness :
  (forall col, verdict (get (uniform (CStr Yes)) col) (get (uniform (CStr No)) col)
               = AStronger)
  /\ calc_country_completeness (get (uniform (CStr No)))
     <= calc_country_completeness (get (uniform (CStr Yes))).
Proof.
  split.
  - intros col. destruct col; reflexivity.
  - apply (stronger_everywhere_scores_higher (lit "France") (lit "Iraq")
             (uniform (CStr Yes)) (uniform (CStr No))).
    intros col. right. destruct col; reflexivity.
Defined.

(* ================================================================= *)
(** ** The order of the country selectors *)

Lemma ltb_irrefl (a : str) : PyStr.ltb a a = false.
Proof.
  induction a as [|x a IH]; simpl; [reflexivity|].
  rewrite N.ltb_irrefl, N.eqb_refl, IH. reflexivity.
Qed.

Lemma ltb_cons (x y : N) (a b : str) :
  PyStr.ltb (x :: a) (y :: b) = true <->
  (x < y)%N \/ (x = y /\ PyStr.ltb a b = true).
Proof.
  simpl. rewrite orb_true_iff, andb_true_iff, N.ltb_lt, N.eqb_eq. tauto.
Qed.

Lemma ltb_trans (a b c : str) :
  PyStr.ltb a b = true -> PyStr.ltb b c = true -> PyStr.ltb a c = true.
Proof.
  revert b c. induction a as [|x a IH]; intros [|y b] [|z c]; try discriminate;
    try (intros; reflexivity).
  rewrite !ltb_cons. intros [H1|[H1 H1']] [H2|[H2 H2']].
  - left. lia.
  - left. lia.
  - left. lia.
  - right. split; [lia|]. eapply IH; eassumption.
Qed.

Lemma ltb_total (a b : str) :
  PyStr.ltb a b = false -> PyStr.ltb b a = false -> a = b.
Proof.
  revert b. induction a as [|x a IH]; intros [|y b]; simpl; try discriminate;
    [reflexivity|].
  rewrite !orb_false_iff, !andb_false_iff, !N.ltb_ge, !N.eqb_neq.
  intros [H1 H1'] [H2 H2'].
  assert (x = y) by lia. subst y.
  f_equal. apply IH.
  - destruct H1' as [H|H]; [contradiction|exact H].
  - destruct H2' as [H|H]; [contradiction|exact H].
Qed.

Lemma insert_sorted_sorted (x : str) (l : list str) :
  StronglySorted str_lt l -> ~ In x l ->
  StronglySorted str_lt (insert_sorted x l).
Proof.
  intros Hs. induction Hs as [|y l Hs IH Hy]; intros Hx; simpl.
  - constructor; constructor.
  - destruct (PyStr.leb x y) eqn:E.
    + assert (Hxy : str_lt x y).
      { unfold str_lt. unfold PyStr.leb in E. apply negb_true_iff in E.
        destruct (PyStr.ltb x y) eqn:E2; [reflexivity|].
        exfalso. apply Hx. left. symmetry. apply ltb_total; assumption. }
      constructor; [constructor; assumption|].
      constructor; [exact Hxy|].
      eapply Forall_impl; [|exact Hy]. intros z Hz.
      unfold str_lt in *. eapply ltb_trans; eassumption.
    + assert (Hyx : str_lt y x).
      { unfold str_lt. unfold PyStr.leb in E. apply negb_false_iff in E. exact E. }
      constructor.
      * apply IH. intros Hin. apply Hx. right. exact Hin.
      * apply Forall_forall. intros z Hz. apply In_insert_sorted in Hz.
        destruct Hz as [->|Hz]; [exact Hyx|].
        rewrite Forall_forall in Hy. apply Hy. exact Hz.
Qed.

Lemma NoDup_unique (l : list str) : NoDup (unique l).
Proof.
  induction l as [|x l IH]; simpl; constructor.
  - rewrite filter_In. intros [_ H]. rewrite eqb_refl in H. discriminate.
  - apply NoDup_filter. exact IH.
Qed.

Lemma sorted_sorted (l : list str) : NoDup l -> StronglySorted str_lt (sorted l).
Proof.
  unfold sorted. induction 1 as [|x l Hx Hnd IH]; simpl; [constructor|].
  apply insert_sorted_sorted; [exact IH|].
  intros Hin. apply Hx. apply In_sorted. exact Hin.
Qed.

Lemma sorted_NoDup (l : list str) : StronglySorted str_lt l -> NoDup l.
Proof.
  induction 1 as [|x l Hs IH Hx]; constructor; [|exact IH].
  intros Hin. rewrite Forall_forall in Hx. specialize (Hx x Hin).
  unfold str_lt in Hx. rewrite ltb_irrefl in Hx. discriminate.
Qed.

Lemma NoDup_map_CStr (l : list str) : NoDup l -> NoDup (map CStr l).
Proof.
  induction 1 as [|x l Hx Hnd IH]; simpl; constructor; [|exact IH].
  intros Hin. apply in_map_iff in Hin as [y [E Hy]]. injection E as ->.
  contradiction.
Qed.

(** X8: the options of the country selectors are the country names that
    occur in the table, each once, in strictly increasing code point order;
    a missing country is no option. *)
Theorem countries_sorted_distinct (df : DataFrame) :
  StronglySorted str_lt (countries df)
  /\ NoDup (countries df)
  /\ (forall name, In name (countries df) <-> In (CStr name) (map country df))
  /\ (List.length (countries df) <= List.length df)%nat.
Proof.
  assert (Hs : StronglySorted str_lt (countries df))
    by (unfold countries; apply sorted_sorted, NoDup_unique).
  split; [exact Hs|]. split; [apply sorted_NoDup, Hs|].
  split; [intros name; apply In_countries|].
  rewrite <- (length_map CStr (countries df)), <- (length_map country df).
  apply NoDup_incl_length.
  - apply NoDup_map_CStr, sorted_NoDup, Hs.
  - intros v Hin. apply in_map_iff in Hin as [s [<- Hs']].
    apply In_countries. exact Hs'.
Qed.

(* ================================================================= *)
(** ** More on the filter *)

Lemma isin_Yes_Partial (v : Cell) :
  isin v [Yes; Partial] = true <-> v = CStr Yes \/ v = CStr Partial.
Proof.
  rewrite isin_In. simpl. split.
  - intros [s [Hv Hs]]. subst v. destruct Hs as [Hs|[Hs|[]]]; subst s; auto.
  - intros [ -> | -> ]; eexists; (split; [reflexivity|]); auto.
Qed.

(** X9: a record is in the filtered table exactly when it is in the table,
    its country is one of the selected names, its status is one of the
    selected statuses and, under a category focus, its value in that
    category is the literal "Yes" or "Partial"; a record with a missing
    country or status is never shown. *)
Theorem filtered_df_membership
    (df : DataFrame) (selected_countries selected_status : list str)
    (selected_category : option PolicyColumn) (r : Row) :
  In r (filtered_df df selected_countries selected_status selected_category) <->
  In r df
  /\ (exists name, country r = CStr name /\ In name selected_countries)
  /\ (exists status, review_status r = CStr status /\ In status selected_status)
  /\ match selected_category with
     | None => True
     | Some col => get (policy r) col = CStr Yes \/ get (policy r) col = CStr Partial
     end.
Proof.
  unfold filtered_df.
  destruct selected_category as [col|];
    rewrite ?filter_In, andb_true_iff, ?isin_Yes_Partial, !isin_In; tauto.
Qed.

Lemma filter_filter {A : Type} (f g : A -> bool) (l : list A) :
  filter f (filter g l) = filter (fun x => g x && f x) l.
Proof.
  induction l as [|x l IH]; simpl; [reflexivity|].
  destruct (g x); simpl; [destruct (f x)|]; rewrite IH; reflexivity.
Qed.

(** X10: filtering an already filtered table with the same selections
    changes nothing, and a category focus keeps a part, in order, of what
    the same selections show without focus. *)
Theorem filtered_df_idempotent
    (df : DataFrame) (selected_countries selected_status : list str)
    (selected_category : option PolicyColumn) (col : PolicyColumn) :
  filtered_df (filtered_df df selected_countries selected_status selected_category)
    selected_countries selected_status selected_category
  = filtered_df df selected_countries selected_status selected_category
  /\ filtered_df df selected_countries selected_status (Some col)
     = filtered_df (filtered_df df selected_countries selected_status None)
         selected_countries selected_status (Some col)
  /\ (List.length (filtered_df df selected_countries selected_status (Some col))
      <= List.length (filtered_df df selected_countries selected_status None)
      <= List.length df)%nat.
Proof.
  unfold filtered_df. split; [|split].
  - destruct selected_category as [c|]; rewrite !filter_filter;
      apply filter_ext; intros r.
    + destruct (isin (country r) selected_countries),
        (isin (review_status r) selected_status),
        (isin (get (policy r) c) [Yes; Partial]); reflexivity.
    + destruct (isin (country r) selected_countries),
        (isin (review_status r) selected_status); reflexivity.
  - rewrite !filter_filter. apply filter_ext. intros r.
    destruct (isin (country r) selected_countries),
      (isin (review_status r) selected_status); reflexivity.
  - split; apply filter_length_le.
Qed.

Lemma load_completeness (to_datetime : list Cell -> nat -> Timestamp)
    (raw : list RawRow) (r : Row) :
  In r (load to_datetime raw) ->
  completeness_pct r = calc_country_completeness (get (policy r)).
Proof.
  revert r. apply Forall_forall. unfold load. apply mapi_from_Forall.
  reflexivity.
Qed.

Lemma points_focus (p : PolicyCells) (col : PolicyColumn) :
  get p col = CStr Yes \/ get p col = CStr Partial ->
  1 <= total_points (get p).
Proof.
  intros H.
  assert (Hc : 1 <= points (get p col))
    by (destruct H as [-> | ->]; vm_compute; discriminate).
  unfold total_points, POLICY_COLUMNS. cbn [fold_right].
  pose proof (points_range (get p prevention)).
  pose proof (points_range (get p administrative)).
  pose proof (points_range (get p criminal_justice)).
  pose proof (points_range (get p surveillance)).
  pose proof (points_range (get p rehab_reintegration)).
  pose proof (points_range (get p women_children_notes)).
  destruct col; lia.
Qed.

(** X11: under a category focus, no record shown has the literal "No" in
    the focused category, so that column has no gap, and every record shown
    has a completeness score of at least 8.3. *)
Theorem focus_shows_covered_records
    (to_datetime : list Cell -> nat -> Timestamp) (raw : list RawRow)
    (selected_countries selected_status : list str) (col : PolicyColumn) :
  let shown := filtered_df (load to_datetime raw)
                 selected_countries selected_status (Some col) in
  Forall (fun r => 83 <= completeness_pct r) shown
  /\ sum_true (map (fun v => cell_eq v (CStr No)) (column shown col)) = 0%nat.
Proof.
  intros shown.
  assert (Hs : forall r, In r shown ->
             In r (load to_datetime raw)
             /\ (get (policy r) col = CStr Yes \/ get (policy r) col = CStr Partial)).
  { intros r Hin. unfold shown, filtered_df in Hin.
    apply filter_In in Hin as [Hin Hf]. apply filter_In in Hin as [Hin _].
    apply isin_Yes_Partial in Hf. auto. }
  split.
  - apply Forall_forall. intros r Hin. destruct (Hs r Hin) as [Hl Hf].
    rewrite (load_completeness _ _ _ Hl), calc_by_points.
    change 83 with (tenths_of_points 1).
    apply tenths_of_points_mono; [lia| |apply total_points_range].
    apply (points_focus _ col). exact Hf.
  - unfold column. rewrite map_map. clearbody shown.
    induction shown as [|r l IH]; [reflexivity|].
    cbn [map]. rewrite sum_true_cons, IH by (intros; apply Hs; right; assumption).
    destruct (Hs r (or_introl eq_refl)) as [_ [E|E]]; rewrite E; reflexivity.
Qed.

(* ================================================================= *)
(** ** More on the KPI cards *)

Lemma count_status_cons (r : Row) (df : DataFrame) (status : str) :
  count_status (r :: df) status
  = ((if cell_eq (review_status r) (CStr status) then 1 else 0)
     + count_status df status)%nat.
Proof. unfold count_status. cbn [map]. apply sum_true_cons. Qed.

Lemma count_gap_fields_cons (r : Row) (df : DataFrame) :
  count_gap_fields (r :: df) = (count_gap_fields [r] + count_gap_fields df)%nat.
Proof.
  rewrite !count_gap_fields_raw. unfold Spec.gap_count, Spec.policy_values.
  cbn [flat_map]. rewrite app_nil_r. apply count_occ_app.
Qed.

Lemma count_gap_fields_le (df : DataFrame) :
  (count_gap_fields df <= 6 * List.length df)%nat.
Proof.
  induction df as [|r df IH]; [apply Nat.le_refl|].
  rewrite count_gap_fields_cons. cbn [List.length].
  assert (H : (count_gap_fields [r] <= 6)%nat).
  { apply Nat2Z.inj_le. rewrite row_gaps. unfold POLICY_COLUMNS. cbn [fold_right].
    pose proof (points_no (get (policy r) prevention)).
    pose proof (points_no (get (policy r) administrative)).
    pose proof (points_no (get (policy r) criminal_justice)).
    pose proof (points_no (get (policy r) surveillance)).
    pose proof (points_no (get (policy r) rehab_reintegration)).
    pose proof (points_no (get (policy r) women_children_notes)).
    lia. }
  lia.
Qed.

Lemma status_counts_le (df : DataFrame) :
  (count_status df (lit "Green") + count_status df (lit "Yellow")
   + count_status df (lit "Red") <= List.length df)%nat.
Proof.
  induction df as [|r df IH]; [apply Nat.le_refl|].
  rewrite !count_status_cons. cbn [List.length].
  destruct (review_status r) as [s|]; cbn [cell_eq]; [|lia].
  rewrite !eqb_dec. decide_strings; try lia; absurd_literal.
Qed.

Lemma status_counts_eq (df : DataFrame) :
  Forall (fun r => isin (review_status r) STATUS_OPTIONS = true) df ->
  (count_status df (lit "Green") + count_status df (lit "Yellow")
   + count_status df (lit "Red") = List.length df)%nat.
Proof.
  induction 1 as [|r df Hr _ IH]; [reflexivity|].
  rewrite !count_status_cons. cbn [List.length].
  revert Hr. unfold isin, STATUS_OPTIONS. cbn [existsb].
  destruct (review_status r) as [s|]; cbn [cell_eq]; [|discriminate].
  rewrite !eqb_dec. decide_strings; intros Hr;
    try (cbv in Hr; discriminate Hr); try lia; absurd_literal.
Qed.

(** X12: whatever the selections, the number of filtered countries is at
    most the number of countries of the table, the three status counts
    together are at most the number of filtered countries, and the gap
    count is at most six per filtered country. *)
Theorem kpi_bounds (mean_round_1 : list Z -> Z) (df : DataFrame)
    (selected_countries selected_status : list str)
    (selected_category : option PolicyColumn) :
  let k := kpis mean_round_1 df
             (filtered_df df selected_countries selected_status selected_category) in
  (total_country k <= total_all k)%nat
  /\ (green_count k + yellow_count k + red_count k <= total_country k)%nat
  /\ (gap_fields k <= 6 * total_country k)%nat.
Proof.
  intros k. subst k. cbn [kpis total_country total_all green_count yellow_count
                          red_count gap_fields].
  split; [|split].
  - unfold filtered_df. destruct selected_category.
    + eapply Nat.le_trans; apply filter_length_le.
    + apply filter_length_le.
  - apply status_counts_le.
  - destruct (0 <? _)%nat; [apply count_gap_fields_le | lia].
Qed.

(** X13: when the selected statuses are among the three options of the
    status filter, the three status counts add up to the number of filtered
    countries. *)
Theorem status_counts_add_up (mean_round_1 : list Z -> Z) (df : DataFrame)
    (selected_countries selected_status : list str)
    (selected_category : option PolicyColumn)
    (Hsel : forall s, In s selected_status -> In s STATUS_OPTIONS) :
  let k := kpis mean_round_1 df
             (filtered_df df selected_countries selected_status selected_category) in
  (green_count k + yellow_count k + red_count k = total_country k)%nat.
Proof.
  intros k. subst k. cbn [kpis total_country green_count yellow_count red_count].
  apply status_counts_eq. apply Forall_forall. intros r Hin.
  assert (Hst : isin (review_status r) selected_status = true).
  { unfold filtered_df in Hin. destruct selected_category;
      repeat (apply filter_In in Hin as [Hin ?]);
      match goal with H : (_ && _)%bool = true |- _ =>
        apply andb_true_iff in H as [_ H]; exact H end. }
  apply isin_In in Hst as [s [Es Hs]]. apply isin_In. eauto.
Qed.

Lemma status_counts_add_up_witness :
  (forall s, In s [lit "Green"; lit "Red"] -> In s STATUS_OPTIONS)
  /\ (let k := kpis (fun _ => 0) two_df
                 (filtered_df two_df (countries two_df) [lit "Green"; lit "Red"] None) in
      (green_count k + yellow_count k + red_count k = total_country k)%nat).
Proof.
  assert (H : forall s, In s [lit "Green"; lit "Red"] -> In s STATUS_OPTIONS).
  { intros s [<-|[<-|[]]]; simpl; tauto. }
  split; [exact H|].
  apply (status_counts_add_up (fun _ => 0) two_df (countries two_df)
           [lit "Green"; lit "Red"] None H).
Defined.

(* ================================================================= *)
(** ** The status chart *)

Lemma sum_true_absent (series : list Cell) (label : str) :
  ~ In (CStr label) series ->
  sum_true (map (fun c => cell_eq c (CStr label)) series) = 0%nat.
Proof.
  induction series as [|c series IH]; intros H; [reflexivity|].
  cbn [map]. rewrite sum_true_cons, IH by (intros Hin; apply H; right; exact Hin).
  destruct (cell_eq c (CStr label)) eqn:E; [|reflexivity].
  apply cell_eq_CStr in E. exfalso. apply H. left. exact E.
Qed.

Lemma dict_get_tabulate (f : str -> nat) (keys : list str) (label : str) :
  In label keys -> dict_get (map (fun v => (v, f v)) keys) label 0%nat = f label.
Proof.
  induction keys as [|k keys IH]; intros H; [destruct H|].
  cbn [map dict_get]. destruct (PyStr.eqb k label) eqn:E.
  - apply eqb_eq in E. subst k. reflexivity.
  - apply IH. destruct H as [H|H]; [|exact H].
    apply eqb_neq in E. contradiction.
Qed.

Lemma dict_get_missing (f : str -> nat) (keys : list str) (label : str) :
  ~ In label keys -> dict_get (map (fun v => (v, f v)) keys) label 0%nat = 0%nat.
Proof.
  induction keys as [|k keys IH]; intros H; [reflexivity|].
  cbn [map dict_get]. destruct (PyStr.eqb k label) eqn:E.
  - apply eqb_eq in E. exfalso. apply H. left. exact E.
  - apply IH. intros Hin. apply H. right. exact Hin.
Qed.

(** Reading [value_counts] at a label gives the number of occurrences of
    the label, 0 for a label that does not occur. *)
Lemma value_counts_get (series : list Cell) (label : str) :
  dict_get (value_counts series) label 0%nat
  = sum_true (map (fun c => cell_eq c (CStr label)) series).
Proof.
  unfold value_counts.
  destruct (in_dec Spec.str_eq_dec label (unique (dropna series))) as [Hin|Hout].
  - apply (dict_get_tabulate
             (fun v => sum_true (map (fun c => cell_eq c (CStr v)) series))).
    exact Hin.
  - rewrite dict_get_missing by exact Hout.
    symmetry. apply sum_true_absent. intros H. apply Hout.
    apply In_unique, In_dropna. exact H.
Qed.

(** X14: the status chart shows, for Green, Yellow and Red in this order,
    the same counts as the KPI cards, also for a status that no filtered
    record has (count 0); records with another or a missing status are in
    none of the three bars. *)
Theorem status_chart_matches_kpis (mean_round_1 : list Z -> Z) (df fdf : DataFrame) :
  status_counts fdf
  = [(lit "Green", green_count (kpis mean_round_1 df fdf));
     (lit "Yellow", yellow_count (kpis mean_round_1 df fdf));
     (lit "Red", red_count (kpis mean_round_1 df fdf))].
Proof.
  unfold status_counts, reindex, STATUS_OPTIONS. cbn [map kpis green_count
    yellow_count red_count].
  rewrite !value_counts_get. unfold count_status. rewrite !map_map. reflexivity.
Qed.

(* ================================================================= *)
(** ** Status badges *)

(** X15: a status badge is one symbol, a space and the status text as it
    is, so the status can be read back from the badge; the symbol is the
    white circle exactly when the status is none of Green, Yellow, Red. *)
Theorem status_badge_keeps_status (status : Cell) :
  skipn 2 (status_badge status) = py_str status
  /\ nth_error (status_badge status) 1 = Some 32%N
  /\ (nth_error (status_badge status) 0 = Some 9898%N <->
      isin status STATUS_OPTIONS = false).
Proof.
  unfold status_badge, isin, STATUS_EMOJI, STATUS_OPTIONS.
  cbn [dict_get existsb].
  destruct status as [s|]; cbn [cell_eq py_str].
  - rewrite !(eqb_dec s), !eqb_dec. decide_strings;
      try absurd_literal;
      (split; [reflexivity|]); (split; [reflexivity|]); split; intros H;
      try reflexivity; try (cbv in H; discriminate H).
  - repeat split.
Qed.

(* ================================================================= *)
(** ** The comparator panel *)

Lemma lookup_countries (df : DataFrame) (name : str) :
  In name (countries df) -> exists r, lookup df name = Some r.
Proof.
  intros Hin. apply In_countries in Hin.
  destruct (lookup df name) as [r|] eqn:E; [eauto|].
  apply lookup_None in E. contradiction.
Qed.

(** X16: with fewer than two distinct country names the panel only reports
    that there is not enough data, whatever is selected; with at least two,
    the panel first compares the two smallest names, which differ, and this
    comparison finds both records. *)
Theorem initial_comparison (df : DataFrame) :
  ((List.length (countries df) < 2)%nat ->
   initial_comparator df = Some NotEnoughData
   /\ forall country_a country_b,
        comparator df country_a country_b = Some NotEnoughData)
  /\ ((2 <= List.length (countries df))%nat ->
      exists country_a country_b rest rows summary,
        countries df = country_a :: country_b :: rest
        /\ str_lt country_a country_b
        /\ compare df country_a country_b = Some (rows, summary)
        /\ initial_comparator df = Some (Comparison rows summary)).
Proof.
  split.
  - intros H. apply Nat.leb_gt in H.
    unfold initial_comparator, comparator. cbn zeta. rewrite H. auto.
  - intros H.
    assert (Hs : StronglySorted str_lt (countries df))
      by (unfold countries; apply sorted_sorted, NoDup_unique).
    assert (Hin : forall name, In name (countries df) ->
                               exists r, lookup df name = Some r)
      by (intros name; apply lookup_countries).
    unfold initial_comparator, comparator, compare. cbn zeta.
    destruct (countries df) as [|a [|b rest]] eqn:E; simpl in H; try lia.
    destruct (Hin a) as [ra Ha]; [left; reflexivity|].
    destruct (Hin b) as [rb Hb]; [right; left; reflexivity|].
    exists a, b, rest. cbn [List.length Nat.leb Nat.sub Nat.min nth_error].
    rewrite Ha, Hb. do 2 eexists.
    split; [reflexivity|]. split.
    + inversion Hs as [|? ? _ Hall]; subst. inversion Hall; subst. assumption.
    + split; reflexivity.
Qed.

(* ================================================================= *)
(** ** Whitespace around a value *)

Lemma lstrip_spaces (pad s : str) :
  Forall (fun c => PyStr.is_space c = true) pad ->
  PyStr.lstrip (pad ++ s) = PyStr.lstrip s.
Proof.
  induction 1 as [|c pad Hc _ IH]; simpl; [reflexivity|].
  rewrite Hc. exact IH.
Qed.

Lemma lstrip_app (s t : str) :
  PyStr.lstrip s <> [] -> PyStr.lstrip (s ++ t) = PyStr.lstrip s ++ t.
Proof.
  induction s as [|c s IH]; simpl; [congruence|].
  destruct (PyStr.is_space c); [exact IH | reflexivity].
Qed.

Lemma rstrip_spaces (s pad : str) :
  Forall (fun c => PyStr.is_space c = true) pad ->
  PyStr.rstrip (s ++ pad) = PyStr.rstrip s.
Proof.
  intros H. unfold PyStr.rstrip. rewrite rev_app_distr.
  rewrite lstrip_spaces; [reflexivity|].
  apply Forall_forall. intros c Hc. apply in_rev in Hc.
  rewrite Forall_forall in H. apply H. exact Hc.
Qed.

Lemma strip_padded (left_pad s right_pad : str) :
  Forall (fun c => PyStr.is_space c = true) left_pad ->
  Forall (fun c => PyStr.is_space c = true) right_pad ->
  PyStr.strip (left_pad ++ s ++ right_pad) = PyStr.strip s.
Proof.
  intros Hl Hr. unfold PyStr.strip. rewrite (lstrip_spaces _ _ Hl).
  destruct (PyStr.lstrip s) as [|c t] eqn:E.
  - assert (Hs : PyStr.lstrip (s ++ right_pad) = PyStr.lstrip right_pad).
    { clear Hl. induction s as [|x s IH]; [reflexivity|].
      simpl in *. destruct (PyStr.is_space x); [apply IH; exact E|discriminate]. }
    rewrite Hs, <- (app_nil_r right_pad), (lstrip_spaces _ _ Hr). reflexivity.
  - rewrite lstrip_app by congruence. rewrite E. apply rstrip_spaces. exact Hr.
Qed.

(** X17: putting whitespace before or after the stored policy values of a
    row does not change its completeness score. *)
Theorem score_ignores_padding
    (row : PolicyColumn -> Cell) (left_pad right_pad : PolicyColumn -> str)
    (Hleft : forall col, Forall (fun c => PyStr.is_space c = true) (left_pad col))
    (Hright : forall col, Forall (fun c => PyStr.is_space c = true) (right_pad col)) :
  calc_country_completeness
    (fun col => CStr (left_pad col ++ py_str (row col) ++ right_pad col))
  = calc_country_completeness row.
Proof.
  apply calc_ext. intros col. cbn [py_str]. apply strip_padded; auto.
Qed.

Lemma score_ignores_padding_witness :
  calc_country_completeness
    (fun col => CStr (lit " " ++ py_str (CStr Partial) ++ [9%N; 160%N]))
  = calc_country_completeness (fun _ => CStr Partial).
Proof.
  apply (score_ignores_padding (fun _ => CStr Partial) (fun _ => lit " ")
           (fun _ => [9%N; 160%N])).
  - intros col. repeat constructor.
  - intros col. repeat constructor.
Defined.

(* ================================================================= *)
(** ** Gaps of a filtered table *)

Lemma count_gap_fields_filter (f : Row -> bool) (df : DataFrame) :
  (count_gap_fields (filter f df) <= count_gap_fields df)%nat.
Proof.
  induction df as [|r df IH]; [apply Nat.le_refl|].
  cbn [filter]. rewrite (count_gap_fields_cons r df).
  destruct (f r); [rewrite count_gap_fields_cons|]; lia.
Qed.

Lemma count_gap_fields_app (a b : DataFrame) :
  count_gap_fields (a ++ b) = (count_gap_fields a + count_gap_fields b)%nat.
Proof.
  induction a as [|r a IH]; [reflexivity|].
  rewrite <- app_comm_cons, count_gap_fields_cons, IH, (count_gap_fields_cons r a).
  lia.
Qed.

(** X18: the gap count is additive over the rows of a table, and the gap
    count shown for a filtered table never exceeds the gap count of the
    whole table. *)
Theorem gaps_of_filtered_table (mean_round_1 : list Z -> Z) (df more : DataFrame)
    (selected_countries selected_status : list str)
    (selected_category : option PolicyColumn) :
  count_gap_fields (df ++ more) = (count_gap_fields df + count_gap_fields more)%nat
  /\ (gap_fields
        (kpis mean_round_1 df
           (filtered_df df selected_countries selected_status selected_category))
      <= count_gap_fields df)%nat.
Proof.
  split; [apply count_gap_fields_app|].
  cbn [kpis gap_fields]. destruct (0 <? _)%nat; [|lia].
  unfold filtered_df. destruct selected_category.
  - eapply Nat.le_trans; apply count_gap_fields_filter.
  - apply count_gap_fields_filter.
Qed.
